(** * H2OS fleet status endpoint: a shallow embedding of
      [scripts/pi-status-server.py] and the properties of its handlers.

    The script is glue around external tools.  Everything it obtains from
    outside its own text (tool runs, the uptime file, temporary names, the
    runtime's float parser) is collected in a record [Env]; the functions of
    the script are then written, in the order of the source, in a small
    state-and-exception monad whose state holds the file system, the bytes
    put on the wire and the console log.

    The first part holds the definitions: the values of the language, the
    environment, the script, and the plain functions and concrete
    environments the statements are written with.  The second part holds
    the lemmas, grouped by function of the script. *)

From Stdlib Require Import ZArith NArith List String Ascii Bool Lia.
From Stdlib Require Import SpecFloat DecimalString.
From stdpp Require Import base option list strings gmap.

Local Open Scope Z_scope.

(* ===================================================================== *)
(** ** Python values *)
(* ===================================================================== *)

(** A Python [str] is a sequence of Unicode code points; a Python [bytes]
    is a sequence of octets, which is what a [string] of this library is. *)
Abbreviation str := (list N).
Abbreviation bytes := string.

(** A literal of the source, as a [str]. *)
Definition lit (s : string) : str :=
  List.map N_of_ascii (list_ascii_of_string s).

(** The double quote, for the JSON texts. *)
Definition dq : string := String (ascii_of_nat 34) EmptyString.

(** [str.isspace] on one code point: the white space table of CPython
    (U+0009..U+000D, U+001C..U+0020, U+0085, U+00A0, U+1680,
    U+2000..U+200A, U+2028, U+2029, U+202F, U+205F, U+3000). *)
Definition isspace (c : N) : bool :=
  (((9 <=? c) && (c <=? 13)) || ((28 <=? c) && (c <=? 32))
   || (c =? 133) || (c =? 160) || (c =? 5760)
   || ((8192 <=? c) && (c <=? 8202))
   || (c =? 8232) || (c =? 8233) || (c =? 8239) || (c =? 8287)
   || (c =? 12288))%N.

Fixpoint drop_while (p : N -> bool) (s : str) : str :=
  match s with
  | [] => []
  | c :: r => if p c then drop_while p r else s
  end.

Fixpoint take_while (p : N -> bool) (s : str) : str :=
  match s with
  | [] => []
  | c :: r => if p c then c :: take_while p r else []
  end.

Definition lstrip (s : str) : str := drop_while isspace s.
Definition rstrip (s : str) : str := rev (drop_while isspace (rev s)).

(** [s.strip()] *)
Definition strip (s : str) : str := rstrip (lstrip s).

(** [s.split(sep)] for a one-character separator: never the empty list. *)
Fixpoint split_char (sep : N) (s : str) : list str :=
  match s with
  | [] => [[]]
  | c :: r =>
      if (c =? sep)%N then [] :: split_char sep r
      else match split_char sep r with
           | [] => [[c]]
           | p :: ps => (c :: p) :: ps
           end
  end.

(** [s.split()]: the maximal runs of characters that are not white space.
    [cur] is the run being read, in reverse. *)
Fixpoint split_ws_from (cur : option str) (s : str) : list str :=
  match s with
  | [] => match cur with Some t => [rev t] | None => [] end
  | c :: r =>
      if isspace c then
        match cur with
        | Some t => rev t :: split_ws_from None r
        | None => split_ws_from None r
        end
      else split_ws_from (Some (c :: default [] cur)) r
  end.

Definition split_ws (s : str) : list str := split_ws_from None s.

(** Truth value of [None], a [str] or a [bytes] in a condition. *)
Definition truthy_str (o : option str) : bool :=
  match o with Some (_ :: _) => true | _ => false end.

Definition truthy_bytes (o : option bytes) : bool :=
  match o with Some (String _ _) => true | _ => false end.

(** [str(n)] for an [int], as octets and as a [str]. *)
Definition dec (z : Z) : string := NilZero.string_of_int (Z.to_int z).
Definition str_of_int (z : Z) : str := lit (dec z).

(* ===================================================================== *)
(** ** Association lists for [dict] *)
(* ===================================================================== *)

(** A [dict] keeps its keys in insertion order; assigning to a key that is
    present replaces the value in place. *)
Section Dict.
Context {V : Type}.

Fixpoint dict_set (k : str) (v : V) (d : list (str * V)) : list (str * V) :=
  match d with
  | [] => [(k, v)]
  | (k', v') :: r =>
      if bool_decide (k' = k) then (k', v) :: r
      else (k', v') :: dict_set k v r
  end.

(** [{**d, **e}] evaluated on an accumulator [d]. *)
Definition dict_update (d e : list (str * V)) : list (str * V) :=
  fold_left (fun acc kv => dict_set (fst kv) (snd kv) acc) e d.

(** A display [{k1: v1, ...}]. *)
Definition dict_display (kvs : list (str * V)) : list (str * V) :=
  dict_update [] kvs.

Definition dict_values (d : list (str * V)) : list V := List.map snd d.
Definition dict_keys (d : list (str * V)) : list str := List.map fst d.
End Dict.

(* ===================================================================== *)
(** ** [json.dumps(...).encode()] *)
(* ===================================================================== *)

#[warnings="-register-all"]
Inductive json :=
| JBool (b : bool)
| JInt (z : Z)
| JStr (s : str)
| JDict (kvs : list (str * json)).

Definition hex_digit (n : N) : ascii :=
  if (n <? 10)%N then ascii_of_N (48 + n) else ascii_of_N (87 + n).

(** [format(n, '04x')] for [n < 65536]. *)
Definition hex4 (n : N) : string :=
  String (hex_digit (N.shiftr n 12 mod 16))
    (String (hex_digit (N.shiftr n 8 mod 16))
       (String (hex_digit (N.shiftr n 4 mod 16))
          (String (hex_digit (n mod 16)) EmptyString))).

Definition backslash : ascii := ascii_of_nat 92.

Definition u_escape (n : N) : string :=
  String backslash (String "u"%char (hex4 n)).

(** One character of a JSON string with [ensure_ascii]: everything outside
    the printable ASCII range is escaped, so the text is ASCII and
    [.encode()] maps each character to one octet. *)
Definition json_escape_char (c : N) : string :=
  if (c =? 34)%N then String backslash dq
  else if (c =? 92)%N then String backslash (String backslash EmptyString)
  else if (c =? 10)%N then String backslash "n"
  else if (c =? 13)%N then String backslash "r"
  else if (c =? 9)%N then String backslash "t"
  else if (c =? 12)%N then String backslash "f"
  else if (c =? 8)%N then String backslash "b"
  else if ((32 <=? c) && (c <=? 126))%N then String (ascii_of_N c) EmptyString
  else if (c <? 65536)%N then u_escape c
  else
    let n := (c - 65536)%N in
    (u_escape (N.lor 55296 (N.land (N.shiftr n 10) 1023))
     ++ u_escape (N.lor 56320 (N.land n 1023)))%string.

Definition json_string (s : str) : string :=
  (dq ++ String.concat "" (List.map json_escape_char s) ++ dq)%string.

Fixpoint dumps (j : json) : bytes :=
  match j with
  | JBool true => "true"
  | JBool false => "false"
  | JInt z => dec z
  | JStr s => json_string s
  | JDict kvs =>
      ("{" ++
       (fix items (l : list (str * json)) : string :=
          match l with
          | [] => ""
          | (k, v) :: r =>
              json_string k ++ ": " ++ dumps v ++
              match r with [] => "" | _ :: _ => ", " ++ items r end
          end) kvs
       ++ "}")%string
  end.

(* ===================================================================== *)
(** ** Exceptions, processes and the environment *)
(* ===================================================================== *)

(** The exceptions the calls of the script raise; all of them are
    subclasses of [Exception], which is what the handlers of the script
    catch.  Interrupts delivered from outside ([KeyboardInterrupt],
    [SystemExit]) are not outcomes of a call and are not modelled. *)
Inductive exn :=
| FileNotFoundError
| PermissionError
| OSError
| TimeoutExpired
| UnicodeDecodeError
| ValueError
| OverflowError
| ZeroDivisionError
| IndexError.

Inductive result (A : Type) :=
| Ok (a : A)
| Raise (e : exn).
Arguments Ok {A} a.
Arguments Raise {A} e.

(** [subprocess.CompletedProcess]; [O] is [str] under [text=True] and
    [bytes] otherwise. *)
Record CompletedProcess (O : Type) := {
  returncode : Z;
  stdout : O;
  stderr : O
}.
Arguments returncode {O} c.
Arguments stdout {O} c.
Arguments stderr {O} c.

(** What the script obtains from outside.  A tool run is given its
    argument vector and the file system it starts in; it leaves a file
    system behind and either completes or makes [subprocess.run] raise
    (tool missing, timeout, undecodable output).  The timeout and the
    X11 variables the script passes are fixed per command, so they are
    part of what [run_text] and [run_bytes] stand for.  Within one request
    no command is run twice with the same arguments. *)
Record Env := {
  run_text :
    list str -> gmap str bytes -> gmap str bytes * result (CompletedProcess str);
  run_bytes :
    list str -> gmap str bytes -> gmap str bytes * result (CompletedProcess bytes);
  (** [tempfile.mktemp(suffix='.png')]: a name, no file is created *)
  mktemp : gmap str bytes -> str;
  (** [open('/proc/uptime', 'r')] followed by [f.readline()] *)
  proc_uptime_readline : result str;
  (** the constructor [float] applied to a [str] *)
  float_of_str : str -> result spec_float;
  (** the [Server] and [Date] header values of [http.server] *)
  version_string : str;
  date_time_string : str
}.

(** What goes to the client, in the order it is sent. *)
Inductive wire_event :=
| SendResponse (code : Z)
| SendHeader (k v : str)
| EndHeaders
| Write (b : bytes).

(** What [print] writes to the console. *)
Inductive log_entry :=
| ScreenshotFailed (rc : Z) (err out : bytes)
| ScreenshotException (e : exn).

Record State := {
  fs : gmap str bytes;
  wire : list wire_event;
  console : list log_entry
}.

Definition set_fs (f : gmap str bytes) (s : State) : State :=
  {| fs := f; wire := wire s; console := console s |}.
Definition emit (e : wire_event) (s : State) : State :=
  {| fs := fs s; wire := wire s ++ [e]; console := console s |}.
Definition log (l : log_entry) (s : State) : State :=
  {| fs := fs s; wire := wire s; console := console s ++ [l] |}.

(** The state a request starts in: nothing sent, nothing logged. *)
Definition connection (f : gmap str bytes) : State :=
  {| fs := f; wire := []; console := [] |}.

(** The monad of the script: a state, and a value or a raised exception.
    Effects made before an exception is raised stay. *)
Definition M (A : Type) : Type := State -> State * result A.

Definition ret {A} (a : A) : M A := fun s => (s, Ok a).
Definition raise {A} (e : exn) : M A := fun s => (s, Raise e).
Definition bind {A B} (m : M A) (k : A -> M B) : M B :=
  fun s =>
    match m s with
    | (s', Ok a) => k a s'
    | (s', Raise e) => (s', Raise e)
    end.

(** [try: m  except Exception as e: h e] *)
Definition try_except {A} (m : M A) (h : exn -> M A) : M A :=
  fun s =>
    match m s with
    | (s', Ok a) => (s', Ok a)
    | (s', Raise e) => h e s'
    end.

Definition lift {A} (r : result A) : M A := fun s => (s, r).

Declare Scope py_scope.
Delimit Scope py_scope with py.
Notation "x <- m ;; k" := (bind m (fun x => k))
  (at level 100, m at next level, right associativity) : py_scope.
Notation "m ;;; k" := (bind m (fun _ => k))
  (at level 100, right associativity) : py_scope.
Local Open Scope py_scope.

(* ===================================================================== *)
(** ** Binary64 arithmetic of the runtime *)
(* ===================================================================== *)

(** A Python [float] is an IEEE 754 binary64 number, here a [spec_float]
    with precision 53 and maximal exponent 1024. *)
Module Float.
Definition prec : Z := 53.
Definition emax : Z := 1024.

Definition add := SFadd prec emax.
Definition sub := SFsub prec emax.
Definition div := SFdiv prec emax.
Definition ltb := SFltb.

(** The conversion of an [int] that is exactly representable. *)
Definition of_Z (z : Z) : spec_float := binary_normalize prec emax z 0 false.

Definition one : spec_float := of_Z 1.
Definition half : spec_float := binary_normalize prec emax 1 (-1) false.

Definition is_zero (x : spec_float) : bool :=
  match x with S754_zero _ => true | _ => false end.

Definition sign_bit (x : spec_float) : bool :=
  match x with
  | S754_zero s | S754_infinity s | S754_finite s _ _ => s
  | S754_nan => false
  end.

(** C's [fmod]: exact, with the sign of the dividend. *)
Definition fmod (x w : spec_float) : spec_float :=
  match x, w with
  | S754_nan, _ | _, S754_nan => S754_nan
  | S754_infinity _, _ => S754_nan
  | _, S754_zero _ => S754_nan
  | S754_zero _, _ => x
  | S754_finite _ _ _, S754_infinity _ => x
  | S754_finite sx mx ex, S754_finite _ mw ew =>
      let e := Z.min ex ew in
      let r := (Zpos mx * 2 ^ (ex - e)) mod (Zpos mw * 2 ^ (ew - e)) in
      binary_normalize prec emax (cond_Zopp sx r) e sx
  end.

(** C's [floor]. *)
Definition floor (x : spec_float) : spec_float :=
  match x with
  | S754_finite s m e =>
      if 0 <=? e then x
      else binary_normalize prec emax (cond_Zopp s (Zpos m) / 2 ^ (- e)) 0 s
  | _ => x
  end.

(** The remainder with the sign of the divisor, as [float_rem] and
    [float_divmod] of CPython compute it from [fmod]. *)
Definition adjust_mod (md wx : spec_float) : spec_float :=
  if is_zero md then S754_zero (sign_bit wx)
  else if xorb (ltb wx (S754_zero false)) (ltb md (S754_zero false))
       then add md wx
       else md.

(** [vx % wx] *)
Definition rem (vx wx : spec_float) : result spec_float :=
  if is_zero wx then Raise ZeroDivisionError
  else Ok (adjust_mod (fmod vx wx) wx).

(** [vx // wx]: the quotient of [vx - fmod(vx, wx)] by [wx], lowered by
    one when the remainder changes sign, then snapped to an integer. *)
Definition floordiv (vx wx : spec_float) : result spec_float :=
  if is_zero wx then Raise ZeroDivisionError
  else
    let md := fmod vx wx in
    let dv := div (sub vx md) wx in
    let dv :=
      if is_zero md then dv
      else if xorb (ltb wx (S754_zero false)) (ltb md (S754_zero false))
           then sub dv one
           else dv in
    if is_zero dv then Ok (S754_zero (sign_bit (div vx wx)))
    else
      let f := floor dv in
      if ltb half (sub dv f) then Ok (add f one) else Ok f.

(** [int(x)]: truncation; not a number and the infinities raise. *)
Definition to_int (x : spec_float) : result Z :=
  match x with
  | S754_nan => Raise ValueError
  | S754_infinity _ => Raise OverflowError
  | S754_zero _ => Ok 0
  | S754_finite s m e =>
      Ok (cond_Zopp s
            (if 0 <=? e then Zpos m * 2 ^ e else Zpos m / 2 ^ (- e)))
  end.
End Float.

(* ===================================================================== *)
(** ** The script *)
(* ===================================================================== *)

(** The responses of the handlers, read off the wire. *)
Definition wire_status (w : list wire_event) : option Z :=
  head (omap (fun e => match e with SendResponse c => Some c | _ => None end) w).

Definition wire_headers (w : list wire_event) : list (str * str) :=
  omap (fun e => match e with SendHeader k v => Some (k, v) | _ => None end) w.

Definition wire_body (w : list wire_event) : bytes :=
  String.concat "" (omap (fun e => match e with Write b => Some b | _ => None end) w).

(** The report of [handle_status], the dictionary [response]. *)
Record StatusReport := {
  status : str;
  systemd : list (str * bool);
  processes : list (str * bool);
  running : Z;
  total : Z;
  uptime : str
}.

Definition json_of_checks (d : list (str * bool)) : json :=
  JDict (List.map (fun kv => (fst kv, JBool (snd kv))) d).

Definition json_of_report (r : StatusReport) : json :=
  JDict [ (lit "status", JStr (status r));
          (lit "systemd", json_of_checks (systemd r));
          (lit "processes", json_of_checks (processes r));
          (lit "running", JInt (running r));
          (lit "total", JInt (total r));
          (lit "uptime", JStr (uptime r)) ].

Section Script.
Variable E : Env.

(** *** Primitives of the runtime *)

Definition subprocess_run_text (argv : list str) : M (CompletedProcess str) :=
  fun s => let (f, r) := run_text E argv (fs s) in (set_fs f s, r).

Definition subprocess_run_bytes (argv : list str) : M (CompletedProcess bytes) :=
  fun s => let (f, r) := run_bytes E argv (fs s) in (set_fs f s, r).

Definition tempfile_mktemp : M str := fun s => (s, Ok (mktemp E (fs s))).

Definition os_path_exists (p : str) : M bool :=
  fun s => (s, Ok (match fs s !! p with Some _ => true | None => false end)).

(** [with open(p, 'rb') as f: f.read()] *)
Definition read_file (p : str) : M bytes :=
  fun s => match fs s !! p with
           | Some b => (s, Ok b)
           | None => (s, Raise FileNotFoundError)
           end.

Definition os_unlink (p : str) : M unit :=
  fun s => match fs s !! p with
           | Some _ => (set_fs (delete p (fs s)) s, Ok tt)
           | None => (s, Raise FileNotFoundError)
           end.

Definition print (l : log_entry) : M unit := fun s => (log l s, Ok tt).

Definition send_header (k v : str) : M unit :=
  fun s => (emit (SendHeader k v) s, Ok tt).

(** [send_response] of [BaseHTTPRequestHandler]: the status line and the
    [Server] and [Date] headers ([log_message] is overridden to do
    nothing). *)
Definition send_response (code : Z) : M unit :=
  (fun s => (emit (SendResponse code) s, Ok tt));;;
  send_header (lit "Server") (version_string E);;;
  send_header (lit "Date") (date_time_string E).

Definition end_headers : M unit := fun s => (emit EndHeaders s, Ok tt).

Definition wfile_write (b : bytes) : M unit := fun s => (emit (Write b) s, Ok tt).

(** [l[0]] *)
Definition index0 {A} (l : list A) : result A :=
  match l with
  | x :: _ => Ok x
  | [] => Raise IndexError
  end.

(** *** The probes *)

Definition check_systemd_service (service_name : str) : M bool :=
  try_except
    (result <- subprocess_run_text [lit "systemctl"; lit "is-active"; service_name];;
     ret (bool_decide (strip (stdout result) = lit "active")))
    (fun _ => ret false).

Definition check_process (pattern : str) : M bool :=
  try_except
    (result <- subprocess_run_bytes [lit "pgrep"; lit "-f"; pattern];;
     ret (returncode result =? 0))
    (fun _ => ret false).

Definition get_uptime : M str :=
  try_except
    (line <- lift (proc_uptime_readline E);;
     tok <- lift (index0 (split_ws line));;
     uptime_seconds <- lift (float_of_str E tok);;
     d <- lift (Float.floordiv uptime_seconds (Float.of_Z 86400));;
     days <- lift (Float.to_int d);;
     m <- lift (Float.rem uptime_seconds (Float.of_Z 86400));;
     h <- lift (Float.floordiv m (Float.of_Z 3600));;
     hours <- lift (Float.to_int h);;
     if 0 <? days
     then ret (str_of_int days ++ lit "d " ++ str_of_int hours ++ lit "h")
     else ret (str_of_int hours ++ lit "h"))
    (fun _ => ret (lit "unknown")).

Definition get_window_id (pattern : str) : M (option str) :=
  try_except
    (result <- subprocess_run_text [lit "xdotool"; lit "search"; lit "--name"; pattern];;
     if (returncode result =? 0) && truthy_str (Some (strip (stdout result)))
     then v <- lift (index0 (split_char 10 (strip (stdout result))));; ret (Some v)
     else ret None)
    (fun _ => ret None).

(** The tail of [take_screenshot] after a capture that gave nothing. *)
Definition screenshot_failed (result : CompletedProcess bytes) (temp_path : str)
  : M (option bytes) :=
  print (ScreenshotFailed (returncode result) (stderr result) (stdout result));;;
  ex <- os_path_exists temp_path;;
  (if ex then os_unlink temp_path else ret tt);;;
  ret None.

Definition take_screenshot (window_id : option str) : M (option bytes) :=
  try_except
    (temp_path <- tempfile_mktemp;;
     result <-
       (if truthy_str window_id
        then subprocess_run_bytes
               [lit "import"; lit "-window"; default [] window_id; temp_path]
        else subprocess_run_bytes [lit "/opt/take-screenshot.sh"; temp_path]);;
     ex <- (if returncode result =? 0 then os_path_exists temp_path else ret false);;
     if ex then
       data <- read_file temp_path;;
       if truthy_bytes (Some data)
       then os_unlink temp_path;;; ret (Some data)
       else screenshot_failed result temp_path
     else screenshot_failed result temp_path)
    (fun e => print (ScreenshotException e);;; ret None).

(** *** The handlers *)

(** [sum(1 for v in vs if v)] *)
Definition count_true (vs : list bool) : Z :=
  fold_left (fun acc (v : bool) => if v then acc + 1 else acc) vs 0.

(** Lines 139 to 170 of the source: the dictionary [response]. *)
Definition build_status_report : M StatusReport :=
  s1 <- check_systemd_service (lit "groundwater-connection");;
  s2 <- check_systemd_service (lit "groundwater-genie-manager");;
  s3 <- check_systemd_service (lit "groundwater-updater");;
  let systemd_services :=
    dict_display [ (lit "groundwater-connection", s1);
                   (lit "groundwater-genie-manager", s2);
                   (lit "groundwater-updater", s3) ] in
  p1 <- check_process (lit "kmzero.sh");;
  p2 <- check_process (lit "groundwater.sh");;
  p3 <- check_process (lit "main.py");;
  let processes :=
    dict_display [ (lit "kmzero.sh", p1);
                   (lit "groundwater.sh", p2);
                   (lit "main.py", p3) ] in
  let all_services := dict_update (dict_update [] systemd_services) processes in
  let running_count := count_true (dict_values all_services) in
  let total_count := Z.of_nat (length all_services) in
  let overall :=
    if running_count =? total_count then lit "healthy"
    else if 0 <? running_count then lit "partial"
    else lit "offline" in
  up <- get_uptime;;
  ret {| status := overall;
         systemd := systemd_services;
         processes := processes;
         running := running_count;
         total := total_count;
         uptime := up |}.

Definition handle_status : M unit :=
  response <- build_status_report;;
  send_response 200;;;
  send_header (lit "Content-Type") (lit "application/json");;;
  send_header (lit "Access-Control-Allow-Origin") (lit "*");;;
  end_headers;;;
  wfile_write (dumps (json_of_report response)).

Definition handle_screenshot : M unit :=
  data <- take_screenshot None;;
  if truthy_bytes data then
    send_response 200;;;
    send_header (lit "Content-Type") (lit "image/png");;;
    send_header (lit "Access-Control-Allow-Origin") (lit "*");;;
    send_header (lit "Cache-Control") (lit "no-cache");;;
    end_headers;;;
    wfile_write (default EmptyString data)
  else
    send_response 500;;;
    send_header (lit "Content-Type") (lit "application/json");;;
    end_headers;;;
    wfile_write (dumps (JDict [(lit "error", JStr (lit "Failed to take screenshot"))])).

(** [w = f(a)] followed by [if not w: w = f(b)] *)
Definition or_else (w : option str) (next : M (option str)) : M (option str) :=
  if truthy_str w then ret w else next.

Definition handle_screenshot_terminal : M unit :=
  window_id <- get_window_id (lit "kmzero");;
  window_id <- or_else window_id (get_window_id (lit "LXTerminal"));;
  window_id <- or_else window_id (get_window_id (lit "Terminal"));;
  data <- (if truthy_str window_id then take_screenshot window_id else ret None);;
  if truthy_str window_id && truthy_bytes data then
    send_response 200;;;
    send_header (lit "Content-Type") (lit "image/png");;;
    send_header (lit "Access-Control-Allow-Origin") (lit "*");;;
    send_header (lit "Cache-Control") (lit "no-cache");;;
    end_headers;;;
    wfile_write (default EmptyString data)
  else handle_screenshot.

Definition handle_screenshot_chromium : M unit :=
  window_id <- get_window_id (lit "Chromium");;
  window_id <- or_else window_id (get_window_id (lit "Chrome"));;
  data <- (if truthy_str window_id then take_screenshot window_id else ret None);;
  if truthy_str window_id && truthy_bytes data then
    send_response 200;;;
    send_header (lit "Content-Type") (lit "image/png");;;
    send_header (lit "Access-Control-Allow-Origin") (lit "*");;;
    send_header (lit "Cache-Control") (lit "no-cache");;;
    end_headers;;;
    wfile_write (default EmptyString data)
  else
    send_response 404;;;
    send_header (lit "Content-Type") (lit "application/json");;;
    send_header (lit "Access-Control-Allow-Origin") (lit "*");;;
    end_headers;;;
    wfile_write (dumps (JDict [(lit "error", JStr (lit "Chromium not running"))])).

Definition do_GET (path : str) : M unit :=
  if bool_decide (path = lit "/status") || bool_decide (path = lit "/")
  then handle_status
  else if bool_decide (path = lit "/screenshot") then handle_screenshot
  else if bool_decide (path = lit "/screenshot/terminal")
       then handle_screenshot_terminal
  else if bool_decide (path = lit "/screenshot/chromium")
       then handle_screenshot_chromium
  else send_response 404;;; end_headers.

(** One GET request, served on a fresh connection. *)
Definition serve (path : str) (f : gmap str bytes) : State * result unit :=
  do_GET path (connection f).
End Script.

(* ===================================================================== *)
(** ** The script as functions of the environment

    The definitions below restate, as plain functions of what the tools
    answer, what the monadic functions above compute; the lemmas of the
    second part prove the two equal.  The concrete environments are the
    inputs the examples are evaluated on. *)
(* ===================================================================== *)

(** *** The probes *)

(** What [check_systemd_service] makes of the outcome of the query. *)
Definition systemd_verdict (r : result (CompletedProcess str)) : bool :=
  match r with
  | Ok c => bool_decide (strip (stdout c) = lit "active")
  | Raise _ => false
  end.

(** The three commands of the probes. *)
Definition systemctl_argv (name : str) : list str :=
  [lit "systemctl"; lit "is-active"; name].

(** What [check_process] makes of the outcome of the search. *)
Definition pgrep_verdict (r : result (CompletedProcess bytes)) : bool :=
  match r with
  | Ok c => returncode c =? 0
  | Raise _ => false
  end.

Definition pgrep_argv (pattern : str) : list str :=
  [lit "pgrep"; lit "-f"; pattern].

Definition xdotool_argv (pattern : str) : list str :=
  [lit "xdotool"; lit "search"; lit "--name"; pattern].

(** The first line of a text: what precedes its first line feed. *)
Definition first_line (s : str) : str :=
  take_while (fun c => negb (c =? 10)%N) s.

(** What [get_window_id] makes of the outcome of the search. *)
Definition window_verdict (r : result (CompletedProcess str)) : option str :=
  match r with
  | Ok c =>
      if (returncode c =? 0) && truthy_str (Some (strip (stdout c)))
      then Some (first_line (strip (stdout c)))
      else None
  | Raise _ => None
  end.

(** *** Concrete environments: the basic ones *)

(** An environment given by its tools and its uptime file; the temporary
    name and the two header values are fixed. *)
Definition env_of
    (rt : list str -> gmap str bytes -> gmap str bytes * result (CompletedProcess str))
    (rb : list str -> gmap str bytes -> gmap str bytes * result (CompletedProcess bytes))
    (up : result str) (fl : str -> result spec_float) : Env :=
  {| run_text := rt;
     run_bytes := rb;
     mktemp := fun _ => lit "/tmp/tmpk3v9x_2a.png";
     proc_uptime_readline := up;
     float_of_str := fl;
     version_string := lit "BaseHTTP/0.6 Python/3.11.2";
     date_time_string := lit "Mon, 02 Jan 2023 10:00:00 GMT" |}.

(** A run that completes and touches no file. *)
Definition completes {O : Type} (rc : Z) (out err : O)
    (f : gmap str bytes) : gmap str bytes * result (CompletedProcess O) :=
  (f, Ok {| returncode := rc; stdout := out; stderr := err |}).

(** A run that makes [subprocess.run] raise and touches no file. *)
Definition fails {O : Type} (e : exn)
    (f : gmap str bytes) : gmap str bytes * result (CompletedProcess O) :=
  (f, Raise e).

(** No tool is installed and the uptime file cannot be read. *)
Definition bare_env : Env :=
  env_of (fun _ => fails FileNotFoundError) (fun _ => fails FileNotFoundError)
         (Raise FileNotFoundError) (fun _ => Raise ValueError).

(** The service manager prints [active] and exits with code 3. *)
Definition env_active_exit3 : Env :=
  env_of (fun _ => completes 3 (lit "active" ++ [10%N]) [])
         (fun _ => fails FileNotFoundError)
         (Raise FileNotFoundError) (fun _ => Raise ValueError).

(** The window search exits with code 0 and prints an empty line before
    the identifier. *)
Definition env_search_blank_line : Env :=
  env_of (fun _ => completes 0 ([10%N] ++ lit "4194307" ++ [10%N]) [])
         (fun _ => fails FileNotFoundError)
         (Raise FileNotFoundError) (fun _ => Raise ValueError).

(** The window search exits with code 0 and prints two identifiers. *)
Definition env_search_two : Env :=
  env_of (fun _ => completes 0 (lit "4194307" ++ [10%N] ++ lit "6291459" ++ [10%N]) [])
         (fun _ => fails FileNotFoundError)
         (Raise FileNotFoundError) (fun _ => Raise ValueError).

(** *** The capture *)

(** The command [take_screenshot] runs. *)
Definition capture_argv (window_id : option str) (temp_path : str) : list str :=
  if truthy_str window_id
  then [lit "import"; lit "-window"; default [] window_id; temp_path]
  else [lit "/opt/take-screenshot.sh"; temp_path].

(** What a call of [take_screenshot] returns, from the outcome of the tool
    and the file system [f] the tool leaves behind. *)
Definition capture_verdict (temp_path : str) (f : gmap str bytes)
    (r : result (CompletedProcess bytes)) : option bytes :=
  match r with
  | Ok c =>
      if returncode c =? 0 then
        match f !! temp_path with
        | Some (String a b) => Some (String a b)
        | _ => None
        end
      else None
  | Raise _ => None
  end.

(** The file system after a call: the temporary file is removed when the
    tool returns, and left as the tool left it when [subprocess.run]
    raises. *)
Definition capture_fs (temp_path : str) (f : gmap str bytes)
    (r : result (CompletedProcess bytes)) : gmap str bytes :=
  match r with
  | Ok _ => delete temp_path f
  | Raise _ => f
  end.

(** The whole-screen wrapper starts writing its output file and then hangs
    until the timeout of ten seconds fires. *)
Definition env_capture_hangs : Env :=
  env_of (fun _ => fails FileNotFoundError)
         (fun argv f =>
            match argv with
            | [_; temp_path] => (<[temp_path := "PNG"]> f, Raise TimeoutExpired)
            | _ => (f, Raise FileNotFoundError)
            end)
         (Raise FileNotFoundError) (fun _ => Raise ValueError).

(** *** The uptime *)

(** Sequencing of two steps that may raise. *)
Definition rbind {A B} (r : result A) (k : A -> result B) : result B :=
  match r with
  | Ok a => k a
  | Raise e => Raise e
  end.

(** The counter as [get_uptime] reads it: the first line of the file, its
    first field, parsed as a [float]. *)
Definition uptime_counter (E : Env) : result spec_float :=
  rbind (proc_uptime_readline E)
        (fun line => rbind (index0 (split_ws line)) (float_of_str E)).

(** [int(x // 86400)] and [int((x % 86400) // 3600)] *)
Definition uptime_days (x : spec_float) : result Z :=
  rbind (Float.floordiv x (Float.of_Z 86400)) Float.to_int.

Definition uptime_hours (x : spec_float) : result Z :=
  rbind (Float.rem x (Float.of_Z 86400))
        (fun m => rbind (Float.floordiv m (Float.of_Z 3600)) Float.to_int).

(** What [get_uptime] returns, as a function of the environment. *)
Definition uptime_text (E : Env) : str :=
  match
    rbind (uptime_counter E) (fun x =>
    rbind (uptime_days x) (fun days =>
    rbind (uptime_hours x) (fun hours =>
    Ok (if 0 <? days
        then str_of_int days ++ lit "d " ++ str_of_int hours ++ lit "h"
        else str_of_int hours ++ lit "h"))))
  with
  | Ok text => text
  | Raise _ => lit "unknown"
  end.

(** The binary64 computation of [get_uptime] agrees at [n] whole seconds
    with the integer quotients [n / 86400] and [(n mod 86400) / 3600]. *)
Definition exact_at (n : Z) : bool :=
  match uptime_days (Float.of_Z n), uptime_hours (Float.of_Z n) with
  | Ok d, Ok h => (d =? n / 86400) && (h =? (n mod 86400) / 3600)
  | _, _ => false
  end.

(** The seconds just before, at and just after every full hour of the
    first [days] days. *)
Definition hour_boundaries (days : nat) : list Z :=
  List.concat
    (List.map
       (fun k =>
          List.concat
            (List.map
               (fun h =>
                  let b := 86400 * Z.of_nat k + 3600 * Z.of_nat h in
                  [b - 1; b; b + 1])
               (seq 0 24)))
       (seq 0 days)).

(** The uptime file holds a counter of [secs] whole seconds, as the kernel
    writes it, and [float] reads its first field as that number. *)
Definition env_uptime (secs : Z) : Env :=
  env_of (fun _ => fails FileNotFoundError) (fun _ => fails FileNotFoundError)
         (Ok (lit (dec secs) ++ lit ".00 " ++ lit (dec secs) ++ lit ".00" ++ [10%N]))
         (fun tok => if bool_decide (tok = lit (dec secs) ++ lit ".00")
                     then Ok (Float.of_Z secs) else Raise ValueError).

(** *** The status report *)

(** The report as a function of the six outcomes. *)
Definition report_of (s1 s2 s3 p1 p2 p3 : bool) (up : str) : StatusReport :=
  let systemd_services :=
    dict_display [ (lit "groundwater-connection", s1);
                   (lit "groundwater-genie-manager", s2);
                   (lit "groundwater-updater", s3) ] in
  let processes :=
    dict_display [ (lit "kmzero.sh", p1);
                   (lit "groundwater.sh", p2);
                   (lit "main.py", p3) ] in
  let all_services := dict_update (dict_update [] systemd_services) processes in
  let running_count := count_true (dict_values all_services) in
  let total_count := Z.of_nat (length all_services) in
  {| status := if running_count =? total_count then lit "healthy"
               else if 0 <? running_count then lit "partial"
               else lit "offline";
     systemd := systemd_services;
     processes := processes;
     running := running_count;
     total := total_count;
     uptime := up |}.

(** Every choice of outcomes of the six checks is met by some environment:
    the service query answers per unit name, the process search per
    pattern. *)
Definition env_checks (s1 s2 s3 p1 p2 p3 : bool) : Env :=
  env_of
    (fun argv =>
       let on (b : bool) :=
         if b then completes 0 (lit "active" ++ [10%N]) []
         else completes 3 (lit "inactive" ++ [10%N]) [] in
       if bool_decide (argv = systemctl_argv (lit "groundwater-connection")) then on s1
       else if bool_decide (argv = systemctl_argv (lit "groundwater-genie-manager")) then on s2
       else if bool_decide (argv = systemctl_argv (lit "groundwater-updater")) then on s3
       else fails FileNotFoundError)
    (fun argv =>
       let on (b : bool) :=
         if b then completes 0 "4242" "" else completes 1 "" "" in
       if bool_decide (argv = pgrep_argv (lit "kmzero.sh")) then on p1
       else if bool_decide (argv = pgrep_argv (lit "groundwater.sh")) then on p2
       else if bool_decide (argv = pgrep_argv (lit "main.py")) then on p3
       else fails FileNotFoundError)
    (Ok (lit "90000.00 170000.00" ++ [10%N]))
    (fun tok => if bool_decide (tok = lit "90000.00")
                then Ok (Float.of_Z 90000) else Raise ValueError).

(** *** The responses *)

(** The state after some more events have been sent. *)
Definition sent (evs : list wire_event) (s : State) : State :=
  {| fs := fs s; wire := wire s ++ evs; console := console s |}.

(** What [send_response] sends. *)
Definition status_line (E : Env) (code : Z) : list wire_event :=
  [ SendResponse code;
    SendHeader (lit "Server") (version_string E);
    SendHeader (lit "Date") (date_time_string E) ].

(** The four responses of the screenshot routes and of an unknown path. *)
Definition png_events (E : Env) (data : bytes) : list wire_event :=
  status_line E 200 ++
  [ SendHeader (lit "Content-Type") (lit "image/png");
    SendHeader (lit "Access-Control-Allow-Origin") (lit "*");
    SendHeader (lit "Cache-Control") (lit "no-cache");
    EndHeaders;
    Write data ].

Definition failed_events (E : Env) : list wire_event :=
  status_line E 500 ++
  [ SendHeader (lit "Content-Type") (lit "application/json");
    EndHeaders;
    Write (dumps (JDict [(lit "error", JStr (lit "Failed to take screenshot"))])) ].

Definition not_running_events (E : Env) : list wire_event :=
  status_line E 404 ++
  [ SendHeader (lit "Content-Type") (lit "application/json");
    SendHeader (lit "Access-Control-Allow-Origin") (lit "*");
    EndHeaders;
    Write (dumps (JDict [(lit "error", JStr (lit "Chromium not running"))])) ].

Definition not_found_events (E : Env) : list wire_event :=
  status_line E 404 ++ [EndHeaders].

Definition report_events (E : Env) (r : StatusReport) : list wire_event :=
  status_line E 200 ++
  [ SendHeader (lit "Content-Type") (lit "application/json");
    SendHeader (lit "Access-Control-Allow-Origin") (lit "*");
    EndHeaders;
    Write (dumps (json_of_report r)) ].

(** The whole-screen route: the capture, then one of two responses. *)
Definition screenshot_events (E : Env) (data : option bytes) : list wire_event :=
  if truthy_bytes data then png_events E (default EmptyString data)
  else failed_events E.

(** *** Resolving a window *)

(** A character of a window identifier. *)
Definition not_space (c : N) : bool := negb (isspace c).

(** The searches of a route, in order: the first pattern whose search
    gives a window wins, and the later ones are not run. *)
Fixpoint resolve (E : Env) (patterns : list str) (f : gmap str bytes)
  : gmap str bytes * option str :=
  match patterns with
  | [] => (f, None)
  | p :: ps =>
      let run := run_text E (xdotool_argv p) f in
      if truthy_str (window_verdict run.2) then (run.1, window_verdict run.2)
      else resolve E ps run.1
  end.

Definition terminal_patterns : list str :=
  [lit "kmzero"; lit "LXTerminal"; lit "Terminal"].

Definition chromium_patterns : list str := [lit "Chromium"; lit "Chrome"].

(** The capture of the window a route has resolved, if it resolved one. *)
Definition capture_window (E : Env) (window_id : option str) : M (option bytes) :=
  if truthy_str window_id then take_screenshot E window_id else ret None.

(** The search finds a window, and the capture tool exits with code 1
    without writing its output file. *)
Definition env_window_no_capture : Env :=
  env_of (fun _ => completes 0 (lit "4194307" ++ [10%N]) [])
         (fun _ => completes 1 "" "import: unable to grab")
         (Raise FileNotFoundError) (fun _ => Raise ValueError).

(** The paths [do_GET] knows. *)
Definition routes : list str :=
  [ lit "/status"; lit "/"; lit "/screenshot";
    lit "/screenshot/terminal"; lit "/screenshot/chromium" ].

(** *** Further functions of the environment *)

(** What a call of [take_screenshot] prints: nothing when it returns the
    data, the exit code and the two output streams of the tool when the
    capture gave nothing, the exception when [subprocess.run] raised. *)
Definition capture_log (temp_path : str) (f : gmap str bytes)
    (r : result (CompletedProcess bytes)) : list log_entry :=
  match r with
  | Ok c =>
      if truthy_bytes (capture_verdict temp_path f r) then []
      else [ScreenshotFailed (returncode c) (stderr c) (stdout c)]
  | Raise e => [ScreenshotException e]
  end.

(** The capture tool prints an error, exits with code 1 and leaves an
    empty output file behind; another file is present from the start. *)
Definition env_capture_empty_file : Env :=
  env_of (fun _ => fails FileNotFoundError)
         (fun argv f =>
            match argv with
            | [_; temp_path] =>
                (<[temp_path := EmptyString]> f,
                 Ok {| returncode := 1; stdout := EmptyString;
                       stderr := "giblib error: Can't open X display" |})
            | _ => (f, Raise FileNotFoundError)
            end)
         (Raise FileNotFoundError) (fun _ => Raise ValueError).

(** The whole-screen wrapper writes [data] to its output file and exits
    with code 0. *)
Definition env_capture_writes (data : bytes) : Env :=
  env_of (fun _ => fails FileNotFoundError)
         (fun argv f =>
            match argv with
            | [_; temp_path] =>
                (<[temp_path := data]> f,
                 Ok {| returncode := 0; stdout := EmptyString;
                       stderr := EmptyString |})
            | _ => (f, Raise FileNotFoundError)
            end)
         (Raise FileNotFoundError) (fun _ => Raise ValueError).

(** The uptime file as the kernel writes it, with two fields, and a
    parser that knows the first of them. *)
Definition env_uptime_line (line : str) : Env :=
  env_of (fun _ => fails FileNotFoundError) (fun _ => fails FileNotFoundError)
         (Ok line)
         (fun tok => if bool_decide (tok = lit "90000.00")
                     then Ok (Float.of_Z 90000) else Raise ValueError).

(** The service manager prints [active] between blanks and a line feed. *)
Definition env_active_padded : Env :=
  env_of (fun _ => completes 0 (lit "  " ++ lit "active" ++ [32%N; 10%N]) [])
         (fun _ => fails FileNotFoundError)
         (Raise FileNotFoundError) (fun _ => Raise ValueError).


(** A response as the client reads it: one status line with one of the
    three codes of the script, then headers, then the end of the headers,
    then at most one block of body bytes. *)
Definition well_formed_response (w : list wire_event) : Prop :=
  exists (code : Z) (hs : list (str * str)) (body : list wire_event),
    w = SendResponse code
          :: List.map (fun kv => SendHeader (fst kv) (snd kv)) hs
          ++ EndHeaders :: body
    /\ (code = 200 \/ code = 404 \/ code = 500)
    /\ (body = [] \/ exists b, body = [Write b]).

(** The file system and the data a capture leaves, from the file system
    it starts in. *)
Definition shot_of (E : Env) (window_id : option str) (f : gmap str bytes)
  : gmap str bytes * option bytes :=
  let temp_path := mktemp E f in
  let run := run_bytes E (capture_argv window_id temp_path) f in
  (capture_fs temp_path run.1 run.2, capture_verdict temp_path run.1 run.2).

(** The same for the capture of a resolved window, which is not made when
    no window was resolved. *)
Definition window_shot (E : Env) (window_id : option str) (f : gmap str bytes)
  : gmap str bytes * option bytes :=
  if truthy_str window_id then shot_of E window_id f else (f, None).

(** What the three screenshot routes send, from the file system of the
    request. *)
Definition screenshot_wire (E : Env) (f : gmap str bytes) : list wire_event :=
  screenshot_events E (shot_of E None f).2.

Definition terminal_wire (E : Env) (f : gmap str bytes) : list wire_event :=
  let found := resolve E terminal_patterns f in
  let shot := window_shot E found.2 found.1 in
  if truthy_str found.2 && truthy_bytes shot.2
  then png_events E (default EmptyString shot.2)
  else screenshot_wire E shot.1.

Definition chromium_wire (E : Env) (f : gmap str bytes) : list wire_event :=
  let found := resolve E chromium_patterns f in
  let shot := window_shot E found.2 found.1 in
  if truthy_str found.2 && truthy_bytes shot.2
  then png_events E (default EmptyString shot.2)
  else not_running_events E.


(** Two environments that answer alike except, possibly, when a window is
    searched by another pattern than [kmzero]. *)
Definition same_but_later_searches (E E' : Env) : Prop :=
  (forall f, run_text E (xdotool_argv (lit "kmzero")) f
             = run_text E' (xdotool_argv (lit "kmzero")) f)
  /\ (forall f, mktemp E f = mktemp E' f)
  /\ version_string E = version_string E'
  /\ date_time_string E = date_time_string E'
  /\ (forall argv f, run_bytes E argv f = run_bytes E' argv f).


(** A window is found by the first pattern tried, [found] by those tried
    after it; captures of a window succeed. *)
Definition env_terminal (later : str) : Env :=
  env_of (fun argv =>
            if bool_decide (argv = xdotool_argv (lit "kmzero"))
            then completes 0 (lit "4194307" ++ [10%N]) []
            else completes 0 (later ++ [10%N]) [])
         (fun argv f =>
            match argv with
            | [_; _; _; temp_path] =>
                (<[temp_path := "window"]> f,
                 Ok {| returncode := 0; stdout := EmptyString;
                       stderr := EmptyString |})
            | _ => (f, Raise FileNotFoundError)
            end)
         (Raise FileNotFoundError) (fun _ => Raise ValueError).

(* ===================================================================== *)
(** ** Running the monad *)
(* ===================================================================== *)

Lemma bind_ok {A B} (m : M A) (k : A -> M B) s s' a :
  m s = (s', Ok a) -> bind m k s = k a s'.
Proof. intros H. unfold bind. now rewrite H. Qed.

Lemma bind_raise {A B} (m : M A) (k : A -> M B) s s' e :
  m s = (s', Raise e) -> bind m k s = (s', Raise e).
Proof. intros H. unfold bind. now rewrite H. Qed.

Lemma try_ok {A} (m : M A) h s s' a :
  m s = (s', Ok a) -> try_except m h s = (s', Ok a).
Proof. intros H. unfold try_except. now rewrite H. Qed.

Lemma try_raise {A} (m : M A) h s s' e :
  m s = (s', Raise e) -> try_except m h s = h e s'.
Proof. intros H. unfold try_except. now rewrite H. Qed.

Lemma wire_set_fs f s : wire (set_fs f s) = wire s.
Proof. reflexivity. Qed.

Lemma wire_log l s : wire (log l s) = wire s.
Proof. reflexivity. Qed.

Lemma fs_set_fs f s : fs (set_fs f s) = f.
Proof. reflexivity. Qed.

Lemma fs_log l s : fs (log l s) = fs s.
Proof. reflexivity. Qed.

(** *** The probes as functions of the tool's outcome *)

Lemma check_systemd_service_run E name s :
  check_systemd_service E name s =
  (set_fs (run_text E (systemctl_argv name) (fs s)).1 s,
   Ok (systemd_verdict (run_text E (systemctl_argv name) (fs s)).2)).
Proof.
  unfold check_systemd_service, try_except, bind, subprocess_run_text, ret,
    systemctl_argv.
  destruct (run_text E _ (fs s)) as [f [c|e]]; reflexivity.
Qed.

Lemma check_process_run E pattern s :
  check_process E pattern s =
  (set_fs (run_bytes E (pgrep_argv pattern) (fs s)).1 s,
   Ok (pgrep_verdict (run_bytes E (pgrep_argv pattern) (fs s)).2)).
Proof.
  unfold check_process, try_except, bind, subprocess_run_bytes, ret, pgrep_argv.
  destruct (run_bytes E _ (fs s)) as [f [c|e]]; reflexivity.
Qed.

Lemma split_char_first sep s :
  exists ps, split_char sep s = take_while (fun c => negb (c =? sep)%N) s :: ps.
Proof.
  induction s as [|c r [ps IH]]; simpl.
  - now exists [].
  - destruct (c =? sep)%N; simpl.
    + now exists (split_char sep r).
    + rewrite IH. now exists ps.
Qed.

Lemma index0_split_char sep s :
  index0 (split_char sep s) = Ok (take_while (fun c => negb (c =? sep)%N) s).
Proof. destruct (split_char_first sep s) as [ps ->]. reflexivity. Qed.

Lemma get_window_id_run E pattern s :
  get_window_id E pattern s =
  (set_fs (run_text E (xdotool_argv pattern) (fs s)).1 s,
   Ok (window_verdict (run_text E (xdotool_argv pattern) (fs s)).2)).
Proof.
  unfold get_window_id, try_except, bind, subprocess_run_text, ret, lift,
    xdotool_argv, window_verdict, first_line.
  destruct (run_text E _ (fs s)) as [f [c|e]]; [|reflexivity].
  cbn [fst snd].
  destruct ((returncode c =? 0) && truthy_str (Some (strip (stdout c))));
    [|reflexivity].
  now rewrite index0_split_char.
Qed.

(* ===================================================================== *)
(** ** The service check (C6) *)
(* ===================================================================== *)

(** C6, as stated, fails: a query that exits with the non-zero code 3
    while printing [active] makes [check_systemd_service] return true; the
    exit code is not looked at. *)
Lemma check_systemd_service_exit3_true :
  (run_text env_active_exit3 (systemctl_argv (lit "groundwater-updater")) ∅).2
    = Ok {| returncode := 3; stdout := lit "active" ++ [10%N]; stderr := [] |}
  /\ (check_systemd_service env_active_exit3 (lit "groundwater-updater")
        (connection ∅)).2 = Ok true.
Proof. split; vm_compute; reflexivity. Qed.

(** C6, amended: for every service name and every outcome of the query,
    [check_systemd_service] returns (it never raises); it returns true
    exactly when the query completes and its output, stripped of white
    space, is [active]; hence every execution error and every timeout
    yields false.  The exit code plays no part. *)
Theorem check_systemd_service_spec (E : Env) (name : str) (s : State) :
  exists b : bool,
    (check_systemd_service E name s).2 = Ok b
    /\ (b = true <->
        exists c, (run_text E (systemctl_argv name) (fs s)).2 = Ok c
                  /\ strip (stdout c) = lit "active")
    /\ (forall e, (run_text E (systemctl_argv name) (fs s)).2 = Raise e ->
        b = false).
Proof.
  rewrite check_systemd_service_run. cbn [snd].
  eexists; split; [reflexivity|].
  destruct (run_text E _ (fs s)).2 as [c|e]; cbn [systemd_verdict].
  - split; [|discriminate].
    rewrite bool_decide_eq_true. split.
    + intros H. exists c. now split.
    + intros (c' & [= <-] & H). exact H.
  - split; [|reflexivity].
    split; [discriminate|]. now intros (c & [=] & _).
Qed.

Lemma check_systemd_service_spec_active :
  exists b : bool,
    (check_systemd_service env_active_exit3 (lit "groundwater-updater")
       (connection ∅)).2 = Ok b
    /\ b = true.
Proof.
  destruct (check_systemd_service_spec env_active_exit3
              (lit "groundwater-updater") (connection ∅)) as (b & Hb & Hiff & _).
  exists b. split; [exact Hb|].
  apply Hiff. eexists. split; vm_compute; reflexivity.
Defined.

(* ===================================================================== *)
(** ** The window search (C8) *)
(* ===================================================================== *)

(** C8, as stated, fails: the search exits with code 0 and its output is
    not empty, yet what [get_window_id] returns is not the first line of
    that output (which is empty here) but the first line of the output
    with the surrounding white space removed. *)
Lemma get_window_id_blank_first_line :
  (run_text env_search_blank_line (xdotool_argv (lit "Chromium")) ∅).2
    = Ok {| returncode := 0;
            stdout := [10%N] ++ lit "4194307" ++ [10%N];
            stderr := [] |}
  /\ first_line ([10%N] ++ lit "4194307" ++ [10%N]) = []
  /\ (get_window_id env_search_blank_line (lit "Chromium") (connection ∅)).2
     = Ok (Some (lit "4194307")).
Proof. repeat split; vm_compute; reflexivity. Qed.

(** C8, amended: for every pattern and every outcome of the search,
    [get_window_id] returns (it never raises).  When the tool exits with
    code 0 and its output is not empty once stripped of white space, the
    value is the first line of the stripped output; in every other case
    (another exit code, an output that is empty or only white space, a
    missing tool, a timeout) the value is [None]. *)
Theorem get_window_id_spec (E : Env) (pattern : str) (s : State) :
  exists o : option str,
    (get_window_id E pattern s).2 = Ok o
    /\ (forall c, (run_text E (xdotool_argv pattern) (fs s)).2 = Ok c ->
        returncode c = 0 -> strip (stdout c) <> [] ->
        o = Some (first_line (strip (stdout c))))
    /\ (forall c, (run_text E (xdotool_argv pattern) (fs s)).2 = Ok c ->
        returncode c <> 0 \/ strip (stdout c) = [] -> o = None)
    /\ (forall e, (run_text E (xdotool_argv pattern) (fs s)).2 = Raise e ->
        o = None).
Proof.
  rewrite get_window_id_run. cbn [snd].
  eexists; split; [reflexivity|].
  destruct (run_text E _ (fs s)).2 as [c|e]; cbn [window_verdict].
  - split; [|split; [|discriminate]].
    + intros c' [= <-] Hrc Hne. rewrite Hrc. cbn.
      destruct (strip (stdout c)); [contradiction|reflexivity].
    + intros c' [= <-] [Hrc|Hemp].
      * apply Z.eqb_neq in Hrc. now rewrite Hrc.
      * rewrite Hemp. cbn. now rewrite andb_false_r.
  - split; [discriminate|]. split; [discriminate|reflexivity].
Qed.

Lemma get_window_id_spec_two_windows :
  exists o : option str,
    (get_window_id env_search_two (lit "kmzero") (connection ∅)).2 = Ok o
    /\ o = Some (lit "4194307").
Proof.
  destruct (get_window_id_spec env_search_two (lit "kmzero") (connection ∅))
    as (o & Ho & Hfirst & _).
  exists o. split; [exact Ho|].
  apply (Hfirst {| returncode := 0;
                   stdout := lit "4194307" ++ [10%N] ++ lit "6291459" ++ [10%N];
                   stderr := [] |}); vm_compute; congruence.
Defined.

(* ===================================================================== *)
(** ** The capture (C3) *)
(* ===================================================================== *)

Lemma take_screenshot_run (E : Env) (window_id : option str) (s : State) :
  let temp_path := mktemp E (fs s) in
  let run := run_bytes E (capture_argv window_id temp_path) (fs s) in
  exists s',
    take_screenshot E window_id s
      = (s', Ok (capture_verdict temp_path run.1 run.2))
    /\ wire s' = wire s
    /\ fs s' = capture_fs temp_path run.1 run.2.
Proof.
  intros temp_path run. subst run.
  unfold take_screenshot, try_except, bind, tempfile_mktemp,
    subprocess_run_bytes, capture_argv.
  fold temp_path.
  destruct (truthy_str window_id);
    (destruct (run_bytes E _ (fs s)) as [f [c|e]]; cbn [fst snd];
     [ unfold capture_verdict, capture_fs, screenshot_failed, bind, print,
         os_path_exists, os_unlink, read_file, ret;
       destruct (returncode c =? 0);
       cbv beta; rewrite ?fs_log, ?fs_set_fs;
       destruct (f !! temp_path) as [[|a b]|] eqn:Hf;
       cbn [truthy_bytes];
       repeat (progress (cbv beta iota; rewrite ?fs_log, ?fs_set_fs, ?Hf));
       (eexists; split; [reflexivity|]; split; [reflexivity|];
        first [reflexivity | symmetry; now apply delete_id])
     | unfold print, ret; cbn;
       eexists; split; [reflexivity|]; split; reflexivity ]).
Qed.

(** X3: The temporary file is gone after every call in which the capture tool
    returns, whatever its exit code and whatever it wrote. *)
Lemma take_screenshot_cleans_up_on_return
    (E : Env) (window_id : option str) (s : State)
    (f : gmap str bytes) (c : CompletedProcess bytes) :
  run_bytes E (capture_argv window_id (mktemp E (fs s))) (fs s) = (f, Ok c) ->
  fs (take_screenshot E window_id s).1 !! mktemp E (fs s) = None.
Proof.
  intros Hrun.
  destruct (take_screenshot_run E window_id s) as (s' & Heq & _ & Hfs).
  rewrite Heq. cbn [fst]. rewrite Hfs, Hrun. cbn [fst snd capture_fs].
  apply lookup_delete_eq.
Qed.

(** When [subprocess.run] raises, the file system is left as the tool left
    it: nothing is removed. *)
Lemma take_screenshot_keeps_fs_on_raise
    (E : Env) (window_id : option str) (s : State)
    (f : gmap str bytes) (e : exn) :
  run_bytes E (capture_argv window_id (mktemp E (fs s))) (fs s) = (f, Raise e) ->
  (take_screenshot E window_id s).2 = Ok None
  /\ fs (take_screenshot E window_id s).1 = f.
Proof.
  intros Hrun.
  destruct (take_screenshot_run E window_id s) as (s' & Heq & _ & Hfs).
  rewrite Heq. cbn [fst snd]. rewrite Hfs, Hrun. now split.
Qed.

(** C3 on the code: a capture that times out after the tool has created
    its output file.  The name did not exist before the call, the call
    returns [None], and the file is still there afterwards: the handler of
    the exception logs and returns without the clean-up that the other
    failure path performs. *)
Theorem take_screenshot_timeout_leaves_file :
  (∅ : gmap str bytes) !! mktemp env_capture_hangs ∅ = None
  /\ (take_screenshot env_capture_hangs None (connection ∅)).2 = Ok None
  /\ fs (take_screenshot env_capture_hangs None (connection ∅)).1
       !! mktemp env_capture_hangs ∅ = Some "PNG"
  /\ console (take_screenshot env_capture_hangs None (connection ∅)).1
     = [ScreenshotException TimeoutExpired].
Proof.
  split; [apply lookup_empty|].
  pose proof (take_screenshot_keeps_fs_on_raise env_capture_hangs None
                (connection ∅) (<[mktemp env_capture_hangs ∅ := "PNG"]> ∅)
                TimeoutExpired eq_refl) as [Hret Hfs].
  split; [exact Hret|]. split.
  - rewrite Hfs. apply lookup_insert_eq.
  - reflexivity.
Qed.

(* ===================================================================== *)
(** ** The uptime (C5) *)
(* ===================================================================== *)

Lemma get_uptime_run (E : Env) (s : State) :
  get_uptime E s = (s, Ok (uptime_text E)).
Proof.
  unfold get_uptime, uptime_text, uptime_counter, uptime_days, uptime_hours,
    try_except, bind, lift, ret, rbind.
  destruct (proc_uptime_readline E) as [line|e]; [|reflexivity].
  destruct (index0 (split_ws line)) as [tok|e]; [|reflexivity].
  destruct (float_of_str E tok) as [x|e]; [|reflexivity].
  destruct (Float.floordiv x (Float.of_Z 86400)) as [d|e]; [|reflexivity].
  destruct (Float.to_int d) as [days|e]; [|reflexivity].
  destruct (Float.rem x (Float.of_Z 86400)) as [m|e]; [|reflexivity].
  destruct (Float.floordiv m (Float.of_Z 3600)) as [h|e]; [|reflexivity].
  destruct (Float.to_int h) as [hours|e]; [|reflexivity].
  destruct (0 <? days); reflexivity.
Qed.

(** C5: [get_uptime] returns (it never raises); it returns [unknown] when
    the counter cannot be read or parsed; otherwise, with [days] and
    [hours] the two integers it computes from the counter, it returns
    [{days}d {hours}h] when [days > 0] and [{hours}h] when not.  A counter
    of 90000 seconds gives [1d 1h], one of 3600 seconds gives [1h]. *)
Theorem get_uptime_spec (E : Env) (s : State) :
  exists text : str,
    get_uptime E s = (s, Ok text)
    /\ (forall e, uptime_counter E = Raise e -> text = lit "unknown")
    /\ (forall x days hours,
          uptime_counter E = Ok x ->
          uptime_days x = Ok days -> uptime_hours x = Ok hours ->
          (0 < days ->
           text = str_of_int days ++ lit "d " ++ str_of_int hours ++ lit "h")
          /\ (days <= 0 -> text = str_of_int hours ++ lit "h"))
    /\ (uptime_counter E = Ok (Float.of_Z 90000) -> text = lit "1d 1h")
    /\ (uptime_counter E = Ok (Float.of_Z 3600) -> text = lit "1h").
Proof.
  exists (uptime_text E). split; [apply get_uptime_run|].
  unfold uptime_text. split; [|split; [|split]].
  - intros e ->. reflexivity.
  - intros x days hours -> Hd Hh. cbn [rbind]. rewrite Hd, Hh. cbn [rbind].
    split; intros Hdays.
    + apply Z.ltb_lt in Hdays. now rewrite Hdays.
    + apply Z.ltb_ge in Hdays. now rewrite Hdays.
  - intros ->. vm_compute. reflexivity.
  - intros ->. vm_compute. reflexivity.
Qed.

Lemma get_uptime_spec_90000 :
  exists text : str,
    get_uptime (env_uptime 90000) (connection ∅) = (connection ∅, Ok text)
    /\ text = lit "1d 1h".
Proof.
  destruct (get_uptime_spec (env_uptime 90000) (connection ∅))
    as (text & Hrun & _ & _ & H90000 & _).
  exists text. split; [exact Hrun|].
  apply H90000. vm_compute. reflexivity.
Defined.

(** Further values of the counter, through the whole of [get_uptime]. *)
Lemma get_uptime_examples :
  uptime_text (env_uptime 3600) = lit "1h"
  /\ uptime_text (env_uptime 0) = lit "0h"
  /\ uptime_text (env_uptime 3599) = lit "0h"
  /\ uptime_text (env_uptime 86399) = lit "23h"
  /\ uptime_text (env_uptime 86400) = lit "1d 0h"
  /\ uptime_text (env_uptime 31536000) = lit "365d 0h"
  /\ uptime_text bare_env = lit "unknown".
Proof. repeat split; vm_compute; reflexivity. Qed.

(** Where rounding could matter, around the full hours, the binary64
    computation gives the integer quotients: checked on the first sixty
    days of uptime. *)
Lemma uptime_exact_at_hour_boundaries :
  forallb exact_at (List.filter (fun n => 0 <=? n) (hour_boundaries 60)) = true.
Proof. vm_compute. reflexivity. Qed.

(* ===================================================================== *)
(** ** The responses *)
(* ===================================================================== *)

Lemma sent_eq (s : State) (w : list wire_event) (evs : list wire_event) :
  w = wire s ++ evs ->
  {| fs := fs s; wire := w; console := console s |} = sent evs s.
Proof. intros ->. reflexivity. Qed.

(** Runs a block of [send_response], [send_header], [end_headers] and
    [wfile.write] calls. *)
Ltac run_block :=
  unfold send_response, send_header, end_headers, wfile_write, bind, emit;
  cbn [fs wire console];
  f_equal; apply sent_eq; rewrite <- ?app_assoc; reflexivity.

Lemma send_png_run (E : Env) (data : bytes) (s : State) :
  (send_response E 200;;;
   send_header (lit "Content-Type") (lit "image/png");;;
   send_header (lit "Access-Control-Allow-Origin") (lit "*");;;
   send_header (lit "Cache-Control") (lit "no-cache");;;
   end_headers;;;
   wfile_write data) s
  = (sent (png_events E data) s, Ok tt).
Proof. run_block. Qed.

Lemma send_failed_run (E : Env) (s : State) :
  (send_response E 500;;;
   send_header (lit "Content-Type") (lit "application/json");;;
   end_headers;;;
   wfile_write (dumps (JDict [(lit "error", JStr (lit "Failed to take screenshot"))]))) s
  = (sent (failed_events E) s, Ok tt).
Proof. run_block. Qed.

Lemma send_not_running_run (E : Env) (s : State) :
  (send_response E 404;;;
   send_header (lit "Content-Type") (lit "application/json");;;
   send_header (lit "Access-Control-Allow-Origin") (lit "*");;;
   end_headers;;;
   wfile_write (dumps (JDict [(lit "error", JStr (lit "Chromium not running"))]))) s
  = (sent (not_running_events E) s, Ok tt).
Proof. run_block. Qed.

Lemma send_not_found_run (E : Env) (s : State) :
  (send_response E 404;;; end_headers) s = (sent (not_found_events E) s, Ok tt).
Proof. run_block. Qed.

Lemma send_report_run (E : Env) (r : StatusReport) (s : State) :
  (send_response E 200;;;
   send_header (lit "Content-Type") (lit "application/json");;;
   send_header (lit "Access-Control-Allow-Origin") (lit "*");;;
   end_headers;;;
   wfile_write (dumps (json_of_report r))) s
  = (sent (report_events E r) s, Ok tt).
Proof. run_block. Qed.

Lemma handle_screenshot_run (E : Env) (s : State) :
  exists s1 data,
    take_screenshot E None s = (s1, Ok data)
    /\ wire s1 = wire s
    /\ handle_screenshot E s = (sent (screenshot_events E data) s1, Ok tt).
Proof.
  destruct (take_screenshot_run E None s) as (s1 & Hrun & Hwire & _).
  eexists s1, _. split; [exact Hrun|]. split; [exact Hwire|].
  unfold handle_screenshot. rewrite (bind_ok _ _ _ _ _ Hrun).
  unfold screenshot_events.
  destruct (truthy_bytes _); [apply send_png_run|apply send_failed_run].
Qed.

(* ===================================================================== *)
(** ** The status report (C1, C10) *)
(* ===================================================================== *)

(** Runs the six checks and the uptime of [build_status_report], leaving
    the report as a function of six truth values. *)
Ltac run_checks :=
  unfold build_status_report, bind, ret;
  repeat (progress (rewrite ?check_systemd_service_run, ?check_process_run,
                      ?get_uptime_run; cbv beta iota)).

Lemma build_status_report_run (E : Env) (s : State) :
  exists s' s1 s2 s3 p1 p2 p3,
    build_status_report E s = (s', Ok (report_of s1 s2 s3 p1 p2 p3 (uptime_text E)))
    /\ wire s' = wire s.
Proof.
  run_checks.
  eexists _, _, _, _, _, _, _. split; reflexivity.
Qed.

Lemma env_checks_report (s1 s2 s3 p1 p2 p3 : bool) :
  (build_status_report (env_checks s1 s2 s3 p1 p2 p3) (connection ∅)).2
  = Ok (report_of s1 s2 s3 p1 p2 p3 (lit "1d 1h")).
Proof. destruct s1, s2, s3, p1, p2, p3; vm_compute; reflexivity. Qed.

Lemma handle_status_run (E : Env) (s : State) :
  exists s1 r,
    build_status_report E s = (s1, Ok r)
    /\ wire s1 = wire s
    /\ handle_status E s = (sent (report_events E r) s1, Ok tt).
Proof.
  destruct (build_status_report_run E s)
    as (s1 & b1 & b2 & b3 & p1 & p2 & p3 & Hrun & Hwire).
  eexists s1, _. split; [exact Hrun|]. split; [exact Hwire|].
  unfold handle_status. rewrite (bind_ok _ _ _ _ _ Hrun).
  apply send_report_run.
Qed.

(** C1: for every outcome of the six checks, [handle_status] builds a
    report (it never raises) in which [running] is the number of true
    values of the merged mapping [{**systemd, **processes}], and [status]
    is [healthy] exactly when [running = total], [offline] exactly when
    [running = 0], and [partial] in every other case. *)
Theorem status_report_counts (E : Env) (s : State) :
  exists s' r,
    build_status_report E s = (s', Ok r)
    /\ handle_status E s = (sent (report_events E r) s', Ok tt)
    /\ running r
       = Z.of_nat (count_occ bool_dec
                     (dict_values (dict_update (dict_update [] (systemd r))
                                               (processes r))) true)
    /\ (status r = lit "healthy" <-> running r = total r)
    /\ (status r = lit "offline" <-> running r = 0)
    /\ (status r = lit "partial" <-> running r <> total r /\ running r <> 0).
Proof.
  destruct (build_status_report_run E s)
    as (s' & s1 & s2 & s3 & p1 & p2 & p3 & Hrun & _).
  exists s', (report_of s1 s2 s3 p1 p2 p3 (uptime_text E)).
  split; [exact Hrun|].
  split.
  { unfold handle_status. rewrite (bind_ok _ _ _ _ _ Hrun).
    apply send_report_run. }
  generalize (uptime_text E). intros up.
  destruct s1, s2, s3, p1, p2, p3; vm_compute;
    (split; [reflexivity|]); repeat split; intros; try congruence;
    try (exfalso; intuition congruence).
Qed.

(** C10: every report has [total = 6], the three fixed service checks and
    the three fixed process checks, whose keys are pairwise distinct; its
    [running] lies between 0 and [total]; and its [status] is one of
    [healthy], [partial] and [offline]. *)
Theorem status_report_shape (E : Env) (s : State) :
  exists s' r,
    build_status_report E s = (s', Ok r)
    /\ handle_status E s = (sent (report_events E r) s', Ok tt)
    /\ total r = 6
    /\ dict_keys (systemd r)
       = [lit "groundwater-connection"; lit "groundwater-genie-manager";
          lit "groundwater-updater"]
    /\ dict_keys (processes r)
       = [lit "kmzero.sh"; lit "groundwater.sh"; lit "main.py"]
    /\ NoDup (dict_keys (systemd r) ++ dict_keys (processes r))
    /\ 0 <= running r <= total r
    /\ (status r = lit "healthy" \/ status r = lit "partial"
        \/ status r = lit "offline").
Proof.
  destruct (build_status_report_run E s)
    as (s' & s1 & s2 & s3 & p1 & p2 & p3 & Hrun & _).
  exists s', (report_of s1 s2 s3 p1 p2 p3 (uptime_text E)).
  split; [exact Hrun|].
  split.
  { unfold handle_status. rewrite (bind_ok _ _ _ _ _ Hrun).
    apply send_report_run. }
  generalize (uptime_text E). intros up.
  split; [reflexivity|]. split; [reflexivity|]. split; [reflexivity|].
  split.
  { apply (bool_decide_unpack _). vm_compute. exact I. }
  destruct s1, s2, s3, p1, p2, p3; vm_compute;
    (split; [split; discriminate|]); tauto.
Qed.

(* ===================================================================== *)
(** ** Resolving a window *)
(* ===================================================================== *)

Lemma drop_while_suffix (p : N -> bool) (l : str) :
  exists t, l = t ++ drop_while p l.
Proof.
  induction l as [|a l [t IH]]; cbn.
  - now exists [].
  - destruct (p a).
    + exists (a :: t). cbn. now f_equal.
    + now exists [].
Qed.

Lemma rstrip_prefix (l : str) : exists t, l = rstrip l ++ t.
Proof.
  unfold rstrip. destruct (drop_while_suffix isspace (rev l)) as [t Ht].
  exists (rev t). rewrite <- rev_app_distr, <- Ht. now rewrite rev_involutive.
Qed.

Lemma lstrip_head (s : str) (c : N) (r : str) :
  lstrip s = c :: r -> isspace c = false.
Proof.
  unfold lstrip. induction s as [|a s IH]; cbn; [discriminate|].
  destruct (isspace a) eqn:Ha; [exact IH|].
  now intros [= <- _].
Qed.

Lemma strip_head (s : str) (c : N) (r : str) :
  strip s = c :: r -> isspace c = false.
Proof.
  unfold strip. intros H.
  destruct (rstrip_prefix (lstrip s)) as [t Ht].
  rewrite H in Ht. cbn in Ht. exact (lstrip_head _ _ _ Ht).
Qed.

(** A line feed is white space, so a stripped text that is not empty has
    a first line that is not empty. *)
Lemma first_line_strip_nonempty (s : str) :
  strip s <> [] -> first_line (strip s) <> [].
Proof.
  destruct (strip s) as [|c r] eqn:H; [congruence|].
  intros _. apply strip_head in H. unfold first_line. cbn.
  destruct (c =? 10)%N eqn:Hc; [|discriminate].
  apply N.eqb_eq in Hc. subst c. discriminate.
Qed.

(** [get_window_id] returns [None] or a text that is not empty. *)
Lemma window_verdict_truthy (r : result (CompletedProcess str)) :
  window_verdict r = None \/ truthy_str (window_verdict r) = true.
Proof.
  destruct r as [c|e]; [|now left]. cbn.
  destruct (returncode c =? 0); [|now left]. cbn.
  destruct (strip (stdout c)) as [|a l] eqn:Hs; [now left|]. right.
  assert (H : first_line (strip (stdout c)) <> []).
  { apply first_line_strip_nonempty. now rewrite Hs. }
  rewrite Hs in H. destruct (first_line (a :: l)); [contradiction|reflexivity].
Qed.

(** *** Outputs in the format of the search tool

    The tool prints one identifier per line.  On an output that begins
    with a run [d] of characters that are not white space, followed by
    nothing or by a line feed, stripping changes nothing before the first
    line feed, and [get_window_id] returns the first line of the output
    itself. *)

Lemma drop_while_app_stop (p : N -> bool) (l : str) (x : N) (d : str) :
  p x = false -> drop_while p (l ++ x :: d) = drop_while p l ++ x :: d.
Proof.
  intros Hx. induction l as [|a l IH]; cbn.
  - now rewrite Hx.
  - destruct (p a); [exact IH|reflexivity].
Qed.

Lemma forallb_last (p : N -> bool) (d : str) :
  d <> [] -> forallb p d = true -> exists x t, rev d = x :: t /\ p x = true.
Proof.
  intros Hne Hall. destruct (rev d) as [|x t] eqn:Hr.
  - apply (f_equal (@rev N)) in Hr. rewrite rev_involutive in Hr. contradiction.
  - exists x, t. split; [reflexivity|].
    rewrite forallb_forall in Hall. apply Hall, in_rev. rewrite Hr. now left.
Qed.

Lemma strip_ids (d rest : str) :
  d <> [] -> forallb not_space d = true ->
  strip (d ++ rest) = d ++ rstrip rest.
Proof.
  intros Hne Hall. unfold strip.
  assert (Hl : lstrip (d ++ rest) = d ++ rest).
  { destruct d as [|a d]; [contradiction|]. cbn in Hall.
    apply andb_prop in Hall as [Ha _]. unfold not_space in Ha.
    apply negb_true_iff in Ha. unfold lstrip. cbn. now rewrite Ha. }
  rewrite Hl. unfold rstrip. rewrite rev_app_distr.
  destruct (forallb_last not_space d Hne Hall) as (x & t & Hr & Hx).
  rewrite Hr. unfold not_space in Hx. apply negb_true_iff in Hx.
  rewrite (drop_while_app_stop isspace _ x t Hx), <- Hr.
  now rewrite rev_app_distr, rev_involutive.
Qed.

Lemma first_line_app (d t : str) :
  forallb not_space d = true -> (t = [] \/ exists r, t = 10%N :: r) ->
  first_line (d ++ t) = d.
Proof.
  intros Hall Ht. unfold first_line.
  induction d as [|a d IH]; cbn.
  - destruct Ht as [->|[r ->]]; reflexivity.
  - cbn in Hall. apply andb_prop in Hall as [Ha Hd].
    destruct (a =? 10)%N eqn:H10.
    + apply N.eqb_eq in H10. subst a. discriminate.
    + cbn. f_equal. exact (IH Hd).
Qed.

Lemma rstrip_line_feed (r : str) :
  rstrip (10%N :: r) = [] \/ exists r', rstrip (10%N :: r) = 10%N :: r'.
Proof.
  destruct (rstrip_prefix (10%N :: r)) as [t Ht].
  destruct (rstrip (10%N :: r)) as [|a l]; [now left|right].
  cbn in Ht. injection Ht as <- _. now exists l.
Qed.

Lemma get_window_id_first_line_of_output
    (E : Env) (pattern : str) (s : State)
    (c : CompletedProcess str) (d rest : str) :
  (run_text E (xdotool_argv pattern) (fs s)).2 = Ok c ->
  returncode c = 0 ->
  stdout c = d ++ rest -> d <> [] -> forallb not_space d = true ->
  (rest = [] \/ exists r, rest = 10%N :: r) ->
  first_line (stdout c) = d
  /\ (get_window_id E pattern s).2 = Ok (Some (first_line (stdout c))).
Proof.
  intros Hrun Hrc Hout Hne Hall Hrest.
  assert (Hfirst : first_line (stdout c) = d).
  { rewrite Hout. now apply first_line_app. }
  split; [exact Hfirst|].
  rewrite get_window_id_run, Hrun. cbn [snd window_verdict].
  rewrite Hrc, Hout, (strip_ids d rest Hne Hall), <- Hout, Hfirst.
  assert (Hs : first_line (d ++ rstrip rest) = d).
  { apply first_line_app; [exact Hall|].
    destruct Hrest as [->|[r ->]]; [now left|apply rstrip_line_feed]. }
  rewrite Hs. destruct d; [contradiction|reflexivity].
Qed.

Lemma set_fs_set_fs (f g : gmap str bytes) (s : State) :
  set_fs g (set_fs f s) = set_fs g s.
Proof. reflexivity. Qed.

Lemma bind_or_else_found {B} (w : option str) (m : M (option str))
    (k : option str -> M B) (s : State) :
  truthy_str w = true -> bind (or_else w m) k s = k w s.
Proof. intros H. unfold bind, or_else. now rewrite H. Qed.

Lemma bind_or_else_none {B} (m : M (option str))
    (k : option str -> M B) (s : State) :
  bind (or_else None m) k s = bind m k s.
Proof. reflexivity. Qed.

Lemma bind_get_window_id {B} (E : Env) (p : str)
    (k : option str -> M B) (s : State) :
  bind (get_window_id E p) k s
  = k (window_verdict (run_text E (xdotool_argv p) (fs s)).2)
      (set_fs (run_text E (xdotool_argv p) (fs s)).1 s).
Proof. unfold bind. now rewrite get_window_id_run. Qed.

Lemma resolve_three (E : Env) (a b c : str) (s : State) (k : option str -> M unit) :
  (w <- get_window_id E a;;
   w <- or_else w (get_window_id E b);;
   w <- or_else w (get_window_id E c);;
   k w) s
  = k (resolve E [a; b; c] (fs s)).2 (set_fs (resolve E [a; b; c] (fs s)).1 s).
Proof.
  rewrite bind_get_window_id. cbn [resolve].
  set (r1 := run_text E (xdotool_argv a) (fs s)).
  destruct (window_verdict_truthy r1.2) as [H1|H1].
  - rewrite H1. cbn [truthy_str].
    rewrite bind_or_else_none, bind_get_window_id, fs_set_fs, set_fs_set_fs.
    set (r2 := run_text E (xdotool_argv b) r1.1).
    destruct (window_verdict_truthy r2.2) as [H2|H2].
    + rewrite H2. cbn [truthy_str].
      rewrite bind_or_else_none, bind_get_window_id, fs_set_fs, set_fs_set_fs.
      set (r3 := run_text E (xdotool_argv c) r2.1).
      destruct (window_verdict_truthy r3.2) as [H3|H3]; rewrite H3; reflexivity.
    + rewrite !bind_or_else_found by exact H2. now rewrite H2.
  - rewrite !bind_or_else_found by exact H1. now rewrite H1.
Qed.

Lemma resolve_two (E : Env) (a b : str) (s : State) (k : option str -> M unit) :
  (w <- get_window_id E a;;
   w <- or_else w (get_window_id E b);;
   k w) s
  = k (resolve E [a; b] (fs s)).2 (set_fs (resolve E [a; b] (fs s)).1 s).
Proof.
  rewrite bind_get_window_id. cbn [resolve].
  set (r1 := run_text E (xdotool_argv a) (fs s)).
  destruct (window_verdict_truthy r1.2) as [H1|H1].
  - rewrite H1. cbn [truthy_str].
    rewrite bind_or_else_none, bind_get_window_id, fs_set_fs, set_fs_set_fs.
    set (r2 := run_text E (xdotool_argv b) r1.1).
    destruct (window_verdict_truthy r2.2) as [H2|H2]; rewrite H2; reflexivity.
  - rewrite !bind_or_else_found by exact H1. now rewrite H1.
Qed.

(** What [resolve] gives is [None] or a text that is not empty. *)
Lemma resolve_truthy (E : Env) (patterns : list str) (f : gmap str bytes) :
  (resolve E patterns f).2 = None \/ truthy_str (resolve E patterns f).2 = true.
Proof.
  revert f. induction patterns as [|p ps IH]; intros f; cbn [resolve].
  - now left.
  - destruct (truthy_str (window_verdict _)) eqn:H; [now right|apply IH].
Qed.

Lemma capture_window_run (E : Env) (window_id : option str) (s : State) :
  exists s2 shot,
    capture_window E window_id s = (s2, Ok shot) /\ wire s2 = wire s.
Proof.
  unfold capture_window. destruct (truthy_str window_id).
  - destruct (take_screenshot_run E window_id s) as (s2 & Hrun & Hwire & _).
    eexists s2, _. split; [exact Hrun|exact Hwire].
  - exists s, None. split; reflexivity.
Qed.

Lemma handle_screenshot_terminal_run (E : Env) (s : State) :
  let found := resolve E terminal_patterns (fs s) in
  exists s2 shot,
    capture_window E found.2 (set_fs found.1 s) = (s2, Ok shot)
    /\ wire s2 = wire s
    /\ handle_screenshot_terminal E s
       = if truthy_str found.2 && truthy_bytes shot
         then (sent (png_events E (default EmptyString shot)) s2, Ok tt)
         else handle_screenshot E s2.
Proof.
  intros found. unfold handle_screenshot_terminal.
  rewrite resolve_three. fold terminal_patterns. fold found.
  destruct (capture_window_run E found.2 (set_fs found.1 s))
    as (s2 & shot & Hcap & Hwire).
  exists s2, shot. split; [exact Hcap|]. split; [exact Hwire|].
  unfold capture_window in Hcap. rewrite (bind_ok _ _ _ _ _ Hcap).
  destruct (truthy_str found.2 && truthy_bytes shot); [apply send_png_run|reflexivity].
Qed.

Lemma handle_screenshot_chromium_run (E : Env) (s : State) :
  let found := resolve E chromium_patterns (fs s) in
  exists s2 shot,
    capture_window E found.2 (set_fs found.1 s) = (s2, Ok shot)
    /\ wire s2 = wire s
    /\ handle_screenshot_chromium E s
       = (sent (if truthy_str found.2 && truthy_bytes shot
                then png_events E (default EmptyString shot)
                else not_running_events E) s2, Ok tt).
Proof.
  intros found. unfold handle_screenshot_chromium.
  rewrite resolve_two. fold chromium_patterns. fold found.
  destruct (capture_window_run E found.2 (set_fs found.1 s))
    as (s2 & shot & Hcap & Hwire).
  exists s2, shot. split; [exact Hcap|]. split; [exact Hwire|].
  unfold capture_window in Hcap. rewrite (bind_ok _ _ _ _ _ Hcap).
  destruct (truthy_str found.2 && truthy_bytes shot);
    [apply send_png_run|apply send_not_running_run].
Qed.

(** The routes of [do_GET]. *)
Lemma do_GET_terminal (E : Env) :
  do_GET E (lit "/screenshot/terminal") = handle_screenshot_terminal E.
Proof. reflexivity. Qed.

Lemma do_GET_chromium (E : Env) :
  do_GET E (lit "/screenshot/chromium") = handle_screenshot_chromium E.
Proof. reflexivity. Qed.

Lemma do_GET_screenshot (E : Env) :
  do_GET E (lit "/screenshot") = handle_screenshot E.
Proof. reflexivity. Qed.

Lemma do_GET_status (E : Env) :
  do_GET E (lit "/status") = handle_status E /\ do_GET E (lit "/") = handle_status E.
Proof. split; reflexivity. Qed.

(** The status and the body of the responses. *)
Lemma png_events_read (E : Env) (data : bytes) :
  wire_status (png_events E data) = Some 200
  /\ wire_body (png_events E data) = data
  /\ In (lit "Content-Type", lit "image/png") (wire_headers (png_events E data))
  /\ In (lit "Access-Control-Allow-Origin", lit "*")
        (wire_headers (png_events E data)).
Proof.
  split; [reflexivity|]. split; [|split; cbn; tauto].
  unfold wire_body. cbn. destruct data; reflexivity.
Qed.

Lemma failed_events_read (E : Env) :
  wire_status (failed_events E) = Some 500
  /\ wire_body (failed_events E)
     = ("{" ++ dq ++ "error" ++ dq ++ ": " ++ dq ++ "Failed to take screenshot"
        ++ dq ++ "}")%string.
Proof. split; reflexivity. Qed.

Lemma not_running_events_read (E : Env) :
  wire_status (not_running_events E) = Some 404
  /\ wire_body (not_running_events E)
     = ("{" ++ dq ++ "error" ++ dq ++ ": " ++ dq ++ "Chromium not running"
        ++ dq ++ "}")%string
  /\ In (lit "Access-Control-Allow-Origin", lit "*")
        (wire_headers (not_running_events E)).
Proof. split; [reflexivity|]. split; [reflexivity|]. cbn. tauto. Qed.

(* ===================================================================== *)
(** ** The terminal route (C2) *)
(* ===================================================================== *)

(** C2, as stated, fails: with no tool installed the three searches fail,
    the route falls back to the whole-screen path, that capture fails as
    well, and the response is 500 with the error text of [/screenshot]. *)
Lemma screenshot_terminal_500 :
  (resolve bare_env terminal_patterns ∅).2 = None
  /\ (serve bare_env (lit "/screenshot/terminal") ∅).2 = Ok tt
  /\ wire_status (wire (serve bare_env (lit "/screenshot/terminal") ∅).1)
     = Some 500
  /\ wire_body (wire (serve bare_env (lit "/screenshot/terminal") ∅).1)
     = ("{" ++ dq ++ "error" ++ dq ++ ": " ++ dq ++ "Failed to take screenshot"
        ++ dq ++ "}")%string.
Proof. repeat split; vm_compute; reflexivity. Qed.

(** C2, amended: a GET of [/screenshot/terminal] always completes with a
    response.  When one of the three searches resolves a window and the
    capture of that window gives data, the response is 200 with that PNG.
    In every other case (the three searches fail, or the window capture
    fails) the handler runs the whole-screen path: the response is 200
    with the whole-screen PNG when that capture gives data, and 500 with
    the error text of [/screenshot] when it does not.  No other response
    is possible. *)
Theorem screenshot_terminal_spec (E : Env) (f : gmap str bytes) :
  exists (s2 : State) (shot : option bytes)
         (s3 : State) (full : option bytes) (s' : State),
    capture_window E (resolve E terminal_patterns f).2
      (set_fs (resolve E terminal_patterns f).1 (connection f)) = (s2, Ok shot)
    /\ take_screenshot E None s2 = (s3, Ok full)
    /\ serve E (lit "/screenshot/terminal") f = (s', Ok tt)
    /\ wire s'
       = (if truthy_str (resolve E terminal_patterns f).2 && truthy_bytes shot
          then png_events E (default EmptyString shot)
          else if truthy_bytes full
               then png_events E (default EmptyString full)
               else failed_events E)
    /\ (wire_status (wire s') = Some 200
        \/ (wire_status (wire s') = Some 500
            /\ truthy_str (resolve E terminal_patterns f).2 && truthy_bytes shot
               = false
            /\ truthy_bytes full = false)).
Proof.
  unfold serve. rewrite do_GET_terminal.
  destruct (handle_screenshot_terminal_run E (connection f))
    as (s2 & shot & Hcap & Hw2 & Hrun).
  cbn [fs connection] in Hcap, Hrun.
  destruct (handle_screenshot_run E s2) as (s3 & full & Hfull & Hw3 & Hfb).
  exists s2, shot, s3, full.
  rewrite Hrun.
  destruct (truthy_str (resolve E terminal_patterns f).2 && truthy_bytes shot).
  - eexists. split; [exact Hcap|]. split; [exact Hfull|].
    split; [reflexivity|]. cbn [sent wire]. rewrite Hw2. cbn [connection wire app].
    split; [reflexivity|]. left. apply png_events_read.
  - rewrite Hfb. eexists. split; [exact Hcap|]. split; [exact Hfull|].
    split; [reflexivity|]. cbn [sent wire]. rewrite Hw3, Hw2.
    cbn [connection wire app]. unfold screenshot_events.
    destruct (truthy_bytes full).
    + split; [reflexivity|]. left. apply png_events_read.
    + split; [reflexivity|]. right. split; [reflexivity|]. split; reflexivity.
Qed.

(* ===================================================================== *)
(** ** The browser route (C4) *)
(* ===================================================================== *)

(** C4, as stated, fails: the search for [Chromium] resolves a window, the
    capture of that window fails, and the response is the 404 that says
    the browser is not running. *)
Lemma screenshot_chromium_404_with_window :
  (resolve env_window_no_capture chromium_patterns ∅).2 = Some (lit "4194307")
  /\ wire_status (wire (serve env_window_no_capture (lit "/screenshot/chromium") ∅).1)
     = Some 404
  /\ wire_body (wire (serve env_window_no_capture (lit "/screenshot/chromium") ∅).1)
     = ("{" ++ dq ++ "error" ++ dq ++ ": " ++ dq ++ "Chromium not running"
        ++ dq ++ "}")%string.
Proof. repeat split; vm_compute; reflexivity. Qed.

(** C4, amended: a GET of [/screenshot/chromium] always completes with a
    response.  It is 200 with the PNG bytes exactly when the search for
    [Chromium] or, failing that, for [Chrome] resolves a window and the
    capture of that window gives data; it is 404 with the body
    [{"error": "Chromium not running"}] exactly when no window resolves or
    the capture of the resolved window fails. *)
Theorem screenshot_chromium_spec (E : Env) (f : gmap str bytes) :
  exists (s2 : State) (shot : option bytes) (s' : State),
    capture_window E (resolve E chromium_patterns f).2
      (set_fs (resolve E chromium_patterns f).1 (connection f)) = (s2, Ok shot)
    /\ serve E (lit "/screenshot/chromium") f = (s', Ok tt)
    /\ ((wire_status (wire s') = Some 404
         /\ wire_body (wire s')
            = ("{" ++ dq ++ "error" ++ dq ++ ": " ++ dq
               ++ "Chromium not running" ++ dq ++ "}")%string)
        <-> (truthy_str (resolve E chromium_patterns f).2 = false
             \/ truthy_bytes shot = false))
    /\ ((wire_status (wire s') = Some 200
         /\ wire_body (wire s') = default EmptyString shot
         /\ In (lit "Content-Type", lit "image/png") (wire_headers (wire s')))
        <-> (truthy_str (resolve E chromium_patterns f).2 = true
             /\ truthy_bytes shot = true)).
Proof.
  unfold serve. rewrite do_GET_chromium.
  destruct (handle_screenshot_chromium_run E (connection f))
    as (s2 & shot & Hcap & Hw2 & Hrun).
  cbn [fs connection] in Hcap, Hrun.
  exists s2, shot. rewrite Hrun. eexists.
  split; [exact Hcap|]. split; [reflexivity|].
  cbn [sent wire]. rewrite Hw2. cbn [connection wire app].
  destruct (truthy_str (resolve E chromium_patterns f).2);
    destruct (truthy_bytes shot); cbn [andb].
  - destruct (png_events_read E (default EmptyString shot)) as (H1 & H2 & H3 & _).
    split; split.
    + rewrite H1. intros [[=] _].
    + intros [[=]|[=]].
    + tauto.
    + tauto.
  - destruct (not_running_events_read E) as (H1 & H2 & _).
    split; split.
    + tauto.
    + tauto.
    + rewrite H1. intros [[=] _].
    + intros [_ [=]].
  - destruct (not_running_events_read E) as (H1 & H2 & _).
    split; split.
    + tauto.
    + tauto.
    + rewrite H1. intros [[=] _].
    + intros [[=] _].
  - destruct (not_running_events_read E) as (H1 & H2 & _).
    split; split.
    + tauto.
    + tauto.
    + rewrite H1. intros [[=] _].
    + intros [[=] _].
Qed.

(* ===================================================================== *)
(** ** The router (C9, C7) *)
(* ===================================================================== *)

Lemma do_GET_unknown (E : Env) (path : str) :
  ~ In path routes -> do_GET E path = (send_response E 404;;; end_headers).
Proof.
  intros H. unfold do_GET.
  repeat case_bool_decide; try reflexivity; subst; exfalso; apply H; cbn; tauto.
Qed.

(** C9: for every path other than the five routes, the response is 404
    with an empty body: the status line, the two headers [send_response]
    adds, the end of the headers, and nothing written after them. *)
Theorem unknown_path_404 (E : Env) (path : str) (f : gmap str bytes) :
  path <> lit "/" -> path <> lit "/status" -> path <> lit "/screenshot" ->
  path <> lit "/screenshot/terminal" -> path <> lit "/screenshot/chromium" ->
  serve E path f = (sent (not_found_events E) (connection f), Ok tt)
  /\ wire_status (wire (serve E path f).1) = Some 404
  /\ wire_body (wire (serve E path f).1) = EmptyString
  /\ (forall b, ~ In (Write b) (wire (serve E path f).1)).
Proof.
  intros H1 H2 H3 H4 H5.
  assert (Hun : ~ In path routes).
  { unfold routes. cbn [In]. intros [H|[H|[H|[H|[H|[]]]]]]; congruence. }
  unfold serve. rewrite (do_GET_unknown E path Hun), send_not_found_run.
  split; [reflexivity|]. split; [reflexivity|]. split; [reflexivity|].
  intros b. cbn. intros [H|[H|[H|[H|[]]]]]; discriminate.
Qed.

Lemma unknown_path_404_foo :
  wire_status (wire (serve bare_env (lit "/foo") ∅).1) = Some 404
  /\ wire_body (wire (serve bare_env (lit "/foo") ∅).1) = EmptyString.
Proof.
  destruct (unknown_path_404 bare_env (lit "/foo") ∅) as (_ & Hs & Hb & _);
    try (vm_compute; discriminate).
  split; [exact Hs|exact Hb].
Defined.

(** C7, as stated, fails: the 404 sent for an unknown path carries the two
    headers of [send_response] and no other. *)
Lemma unknown_path_no_cors :
  wire_status (wire (serve bare_env (lit "/foo") ∅).1) = Some 404
  /\ wire_headers (wire (serve bare_env (lit "/foo") ∅).1)
     = [ (lit "Server", version_string bare_env);
         (lit "Date", date_time_string bare_env) ].
Proof. split; vm_compute; reflexivity. Qed.

(** C7, amended: on every path, a response with status 200 carries
    [Access-Control-Allow-Origin: *], and so does every response of
    [/screenshot/chromium], its 404 included; the 404 sent for a path that
    is not a route carries no such header. *)
Theorem cors_header_spec (E : Env) (path : str) (f : gmap str bytes) :
  (wire_status (wire (serve E path f).1) = Some 200
   \/ path = lit "/screenshot/chromium" ->
   In (lit "Access-Control-Allow-Origin", lit "*")
      (wire_headers (wire (serve E path f).1)))
  /\ (~ In path routes ->
      forall v, ~ In (lit "Access-Control-Allow-Origin", v)
                     (wire_headers (wire (serve E path f).1))).
Proof.
  split.
  - destruct (decide (In path routes)) as [Hin|Hout].
    + intros Hcase. unfold serve.
      unfold routes in Hin. cbn [In] in Hin.
      destruct Hin as [<-|[<-|[<-|[<-|[<-|[]]]]]].
      * destruct (handle_status_run E (connection f)) as (s1 & r & _ & Hw & Hrun).
        rewrite (proj1 (do_GET_status E)), Hrun. cbn [fst sent wire].
        rewrite Hw. cbn. tauto.
      * destruct (handle_status_run E (connection f)) as (s1 & r & _ & Hw & Hrun).
        rewrite (proj2 (do_GET_status E)), Hrun. cbn [fst sent wire].
        rewrite Hw. cbn. tauto.
      * destruct Hcase as [H200|[=]].
        unfold serve in H200. rewrite do_GET_screenshot in *.
        destruct (handle_screenshot_run E (connection f))
          as (s1 & data & _ & Hw & Hrun).
        rewrite Hrun in *. cbn [fst sent wire] in *. rewrite Hw in *.
        cbn [connection wire app] in *. unfold screenshot_events in *.
        destruct (truthy_bytes data); [apply png_events_read|discriminate].
      * destruct Hcase as [H200|[=]].
        unfold serve in H200. rewrite do_GET_terminal in *.
        destruct (handle_screenshot_terminal_run E (connection f))
          as (s2 & shot & _ & Hw2 & Hrun).
        rewrite Hrun in *.
        destruct (_ && _).
        -- cbn [fst sent wire]. rewrite Hw2. apply png_events_read.
        -- destruct (handle_screenshot_run E s2) as (s3 & data & _ & Hw3 & Hfb).
           rewrite Hfb in *. cbn [fst sent wire] in *. rewrite Hw3, Hw2 in *.
           cbn [connection wire app] in *. unfold screenshot_events in *.
           destruct (truthy_bytes data); [apply png_events_read|discriminate].
      * destruct (handle_screenshot_chromium_run E (connection f))
          as (s2 & shot & _ & Hw & Hrun).
        rewrite do_GET_chromium, Hrun. cbn [fst sent wire]. rewrite Hw.
        cbn [connection wire app].
        destruct (_ && _); [apply png_events_read|apply not_running_events_read].
    + intros [H200|Hp]; [|subst path; exfalso; apply Hout; unfold routes; cbn [In]; tauto].
      unfold serve in H200.
      rewrite (do_GET_unknown E path Hout), send_not_found_run in H200.
      discriminate.
  - intros Hout v. unfold serve.
    rewrite (do_GET_unknown E path Hout), send_not_found_run.
    cbn. intros [H|[H|[]]]; discriminate.
Qed.

(* ===================================================================== *)
(** ** Further properties of the probes and of the capture *)
(* ===================================================================== *)

(** X1: [check_process] returns (it never raises); it returns true exactly
    when the process search completes with exit code 0, and false on
    every other exit code and on every exception; what the search prints
    is not looked at.  It sends nothing and prints nothing. *)
Theorem check_process_spec (E : Env) (pattern : str) (s : State) :
  exists b : bool,
    (check_process E pattern s).2 = Ok b
    /\ (b = true <->
        exists c, (run_bytes E (pgrep_argv pattern) (fs s)).2 = Ok c
                  /\ returncode c = 0)
    /\ wire (check_process E pattern s).1 = wire s
    /\ console (check_process E pattern s).1 = console s.
Proof.
  rewrite check_process_run. cbn [fst snd].
  eexists; split; [reflexivity|].
  split; [|split; reflexivity].
  destruct (run_bytes E _ (fs s)).2 as [c|e]; cbn [pgrep_verdict].
  - rewrite Z.eqb_eq. split.
    + intros H. now exists c.
    + now intros (c' & [= <-] & H).
  - split; [discriminate|]. now intros (c & [=] & _).
Qed.

(** The whole of a call of [take_screenshot]: its value, and the state it
    leaves. *)
Lemma take_screenshot_state (E : Env) (window_id : option str) (s : State) :
  take_screenshot E window_id s
  = ({| fs := capture_fs (mktemp E (fs s))
                (run_bytes E (capture_argv window_id (mktemp E (fs s))) (fs s)).1
                (run_bytes E (capture_argv window_id (mktemp E (fs s))) (fs s)).2;
        wire := wire s;
        console := console s ++
          capture_log (mktemp E (fs s))
            (run_bytes E (capture_argv window_id (mktemp E (fs s))) (fs s)).1
            (run_bytes E (capture_argv window_id (mktemp E (fs s))) (fs s)).2 |},
     Ok (capture_verdict (mktemp E (fs s))
           (run_bytes E (capture_argv window_id (mktemp E (fs s))) (fs s)).1
           (run_bytes E (capture_argv window_id (mktemp E (fs s))) (fs s)).2)).
Proof.
  set (temp_path := mktemp E (fs s)).
  unfold take_screenshot, try_except, bind, tempfile_mktemp,
    subprocess_run_bytes, capture_argv.
  fold temp_path.
  destruct (truthy_str window_id);
    (destruct (run_bytes E _ (fs s)) as [f [c|e]]; cbn [fst snd];
     [ unfold capture_log, capture_verdict, capture_fs, screenshot_failed, bind,
         print, os_path_exists, os_unlink, read_file, ret;
       destruct (returncode c =? 0);
       cbv beta; rewrite ?fs_log, ?fs_set_fs;
       destruct (f !! temp_path) as [[|a b]|] eqn:Hf;
       cbn [truthy_bytes];
       repeat (progress (cbv beta iota; rewrite ?fs_log, ?fs_set_fs, ?Hf));
       unfold set_fs, log; cbn [fs wire console];
       rewrite ?app_nil_r, ?(delete_id f temp_path Hf); reflexivity
     | unfold print, ret, capture_log, capture_fs, log, set_fs;
       cbn [fs wire console]; reflexivity ]).
Qed.

(** What makes a capture give data. *)
Lemma capture_verdict_some (temp_path : str) (f : gmap str bytes)
    (r : result (CompletedProcess bytes)) (data : bytes) :
  capture_verdict temp_path f r = Some data <->
  (exists c, r = Ok c /\ returncode c = 0)
  /\ f !! temp_path = Some data /\ data <> EmptyString.
Proof.
  destruct r as [c|e]; cbn [capture_verdict].
  - destruct (returncode c =? 0) eqn:Hrc.
    + apply Z.eqb_eq in Hrc.
      destruct (f !! temp_path) as [[|a b]|]; split.
      * discriminate.
      * intros (_ & [= <-] & H). contradiction.
      * intros [= <-]. split; [now exists c|]. split; [reflexivity|discriminate].
      * now intros (_ & [= <-] & _).
      * discriminate.
      * intros (_ & [=] & _).
    + apply Z.eqb_neq in Hrc. split; [discriminate|].
      intros ((c' & [= <-] & H) & _). contradiction.
  - split; [discriminate|]. intros ((c & [=] & _) & _).
Qed.

(** X2: [take_screenshot] returns (it never raises).  It returns data exactly
    when the capture tool exits with code 0 and the file at the temporary
    path then holds that data and the data is not empty; in particular it
    never returns empty data. *)
Theorem take_screenshot_returns_file
    (E : Env) (window_id : option str) (s : State) :
  exists o : option bytes,
    (take_screenshot E window_id s).2 = Ok o
    /\ forall data : bytes,
         o = Some data <->
         (exists c,
            (run_bytes E (capture_argv window_id (mktemp E (fs s))) (fs s)).2
              = Ok c
            /\ returncode c = 0)
         /\ (run_bytes E (capture_argv window_id (mktemp E (fs s))) (fs s)).1
              !! mktemp E (fs s) = Some data
         /\ data <> EmptyString.
Proof.
  rewrite take_screenshot_state. cbn [snd].
  eexists; split; [reflexivity|]. intros data.
  apply capture_verdict_some.
Qed.

Lemma take_screenshot_cleans_up_on_return_empty_file :
  fs (take_screenshot env_capture_empty_file None (connection ∅)).1
    !! mktemp env_capture_empty_file ∅ = None.
Proof.
  exact (take_screenshot_cleans_up_on_return env_capture_empty_file None
           (connection ∅) _ _ eq_refl).
Defined.

(** X4: [take_screenshot] creates, changes and removes no file but the one at
    the temporary path: every other path holds after the call what the
    capture tool left there.  Nothing is sent to the client. *)
Theorem take_screenshot_frame
    (E : Env) (window_id : option str) (s : State) (p : str) :
  p <> mktemp E (fs s) ->
  fs (take_screenshot E window_id s).1 !! p
  = (run_bytes E (capture_argv window_id (mktemp E (fs s))) (fs s)).1 !! p
  /\ wire (take_screenshot E window_id s).1 = wire s.
Proof.
  intros Hp. rewrite take_screenshot_state. cbn [fst fs wire].
  split; [|reflexivity].
  destruct (run_bytes E _ (fs s)) as [f [c|e]]; cbn [fst snd capture_fs].
  - now apply lookup_delete_ne.
  - reflexivity.
Qed.

Lemma take_screenshot_frame_other_file :
  fs (take_screenshot env_capture_empty_file None
        (connection {[ lit "/tmp/other.png" := "kept" ]})).1
    !! lit "/tmp/other.png" = Some "kept".
Proof.
  destruct (take_screenshot_frame env_capture_empty_file None
              (connection {[ lit "/tmp/other.png" := "kept" ]})
              (lit "/tmp/other.png")) as [Hfs _].
  - vm_compute. discriminate.
  - rewrite Hfs. reflexivity.
Defined.

(** X5: [take_screenshot] prints one diagnostic line exactly when it returns
    [None]: the exit code and the two output streams of the tool when the
    tool returned, the exception when [subprocess.run] raised.  A call
    that returns data prints nothing. *)
Theorem take_screenshot_console
    (E : Env) (window_id : option str) (s : State) :
  (forall data,
     (take_screenshot E window_id s).2 = Ok (Some data) ->
     console (take_screenshot E window_id s).1 = console s)
  /\ (forall c,
        (run_bytes E (capture_argv window_id (mktemp E (fs s))) (fs s)).2 = Ok c ->
        (take_screenshot E window_id s).2 = Ok None ->
        console (take_screenshot E window_id s).1
        = console s ++ [ScreenshotFailed (returncode c) (stderr c) (stdout c)])
  /\ (forall e,
        (run_bytes E (capture_argv window_id (mktemp E (fs s))) (fs s)).2 = Raise e ->
        (take_screenshot E window_id s).2 = Ok None
        /\ console (take_screenshot E window_id s).1
           = console s ++ [ScreenshotException e]).
Proof.
  rewrite take_screenshot_state. cbn [fst snd console].
  destruct (run_bytes E _ (fs s)) as [f r]. cbn [fst snd].
  split; [|split].
  - intros data. unfold capture_log.
    destruct r as [c|e]; [|discriminate].
    destruct (capture_verdict (mktemp E (fs s)) f (Ok c)) as [[|a b]|] eqn:Hv.
    + cbn [capture_verdict] in Hv.
      destruct (returncode c =? 0); [|discriminate].
      destruct (f !! mktemp E (fs s)) as [[|a b]|]; discriminate.
    + intros _. apply app_nil_r.
    + discriminate.
  - intros c ->. unfold capture_log.
    destruct (capture_verdict (mktemp E (fs s)) f (Ok c)) as [[|a b]|] eqn:Hv;
      [reflexivity|discriminate|reflexivity].
  - intros e ->. split; reflexivity.
Qed.

(* ===================================================================== *)
(** ** Further properties of the texts the probes read *)
(* ===================================================================== *)

Lemma take_while_no_stop (p : N -> bool) (s : str) (c : N) :
  In c (take_while p s) -> p c = true.
Proof.
  induction s as [|a s IH]; cbn; [tauto|].
  destruct (p a) eqn:Ha; [|intros []].
  intros [<-|H]; [exact Ha|exact (IH H)].
Qed.

(** X6: A window identifier that [get_window_id] returns is a text that is
    not empty, does not begin with white space and holds no line feed, so
    it is one argument and one line for the capture tool. *)
Theorem get_window_id_well_formed
    (E : Env) (pattern : str) (s : State) (v : str) :
  (get_window_id E pattern s).2 = Ok (Some v) ->
  (exists c r, v = c :: r /\ isspace c = false) /\ ~ In 10%N v.
Proof.
  rewrite get_window_id_run. cbn [snd]. intros [= Hv].
  destruct (run_text E _ (fs s)).2 as [c|e]; [|discriminate].
  cbn [window_verdict] in Hv.
  destruct (returncode c =? 0); [|discriminate]. cbn [andb] in Hv.
  destruct (strip (stdout c)) as [|a l] eqn:Hs; [discriminate|].
  cbn [truthy_str] in Hv. injection Hv as <-.
  pose proof (strip_head _ _ _ Hs) as Ha. split.
  - unfold first_line. cbn [take_while].
    destruct (a =? 10)%N eqn:H10.
    + apply N.eqb_eq in H10. subst a. discriminate.
    + cbn [negb]. eexists _, _. split; [reflexivity|exact Ha].
  - intros Hin. apply take_while_no_stop in Hin. discriminate.
Qed.

Lemma get_window_id_well_formed_two_windows :
  (exists c r, lit "4194307" = c :: r /\ isspace c = false)
  /\ ~ In 10%N (lit "4194307").
Proof.
  apply (get_window_id_well_formed env_search_two (lit "kmzero") (connection ∅)).
  vm_compute. reflexivity.
Defined.

Lemma split_ws_blank (cur : option str) (s : str) :
  forallb isspace s = true ->
  split_ws_from cur s = match cur with Some t => [rev t] | None => [] end.
Proof.
  revert cur. induction s as [|a s IH]; intros cur; cbn; [reflexivity|].
  intros H. apply andb_prop in H as [Ha Hs]. rewrite Ha.
  destruct cur; now rewrite (IH None Hs).
Qed.

(** X7: An uptime file whose first line is empty or holds only white space
    makes [get_uptime] return [unknown]: there is no first field. *)
Theorem get_uptime_blank_line (E : Env) (s : State) (line : str) :
  proc_uptime_readline E = Ok line -> forallb isspace line = true ->
  get_uptime E s = (s, Ok (lit "unknown")).
Proof.
  intros Hline Hblank. rewrite get_uptime_run. do 2 f_equal.
  unfold uptime_text, uptime_counter, split_ws.
  rewrite Hline. cbn [rbind]. now rewrite (split_ws_blank None line Hblank).
Qed.

Lemma get_uptime_blank_line_empty_file :
  get_uptime (env_uptime_line []) (connection ∅)
  = (connection ∅, Ok (lit "unknown")).
Proof.
  apply (get_uptime_blank_line (env_uptime_line []) (connection ∅) []);
    reflexivity.
Defined.

Lemma split_ws_token (acc tok rest : str) :
  forallb not_space tok = true ->
  (rest = [] \/ exists c r, rest = c :: r /\ isspace c = true) ->
  exists fields,
    split_ws_from (Some acc) (tok ++ rest) = (rev acc ++ tok) :: fields.
Proof.
  revert acc. induction tok as [|a tok IH]; intros acc Htok Hrest.
  - cbn [app]. rewrite app_nil_r.
    destruct Hrest as [->|(c & r & -> & Hc)]; cbn.
    + now exists [].
    + rewrite Hc. now eexists.
  - cbn in Htok. apply andb_prop in Htok as [Ha Htok].
    unfold not_space in Ha. apply negb_true_iff in Ha.
    cbn. rewrite Ha. cbn [default].
    destruct (IH (a :: acc) Htok Hrest) as [fields Hf].
    exists fields. rewrite Hf. cbn [rev]. now rewrite <- app_assoc.
Qed.

Lemma split_ws_first_field (lead tok rest : str) :
  forallb isspace lead = true ->
  tok <> [] -> forallb not_space tok = true ->
  (rest = [] \/ exists c r, rest = c :: r /\ isspace c = true) ->
  index0 (split_ws (lead ++ tok ++ rest)) = Ok tok.
Proof.
  intros Hlead Hne Htok Hrest. unfold split_ws.
  induction lead as [|a lead IH].
  - destruct tok as [|c tok]; [contradiction|].
    cbn in Htok. apply andb_prop in Htok as [Hc Htok].
    unfold not_space in Hc. apply negb_true_iff in Hc.
    cbn. rewrite Hc. cbn [default].
    destruct (split_ws_token [c] tok rest Htok Hrest) as [fields ->].
    reflexivity.
  - cbn in Hlead. apply andb_prop in Hlead as [Ha Hlead].
    cbn. rewrite Ha. exact (IH Hlead).
Qed.

(** X8: [get_uptime] reads the first field of the first line and nothing
    else: white space before the field, and whatever follows the white
    space after it (the idle time of the kernel's file), do not change
    what it returns. *)
Theorem get_uptime_first_field
    (E : Env) (s : State) (lead tok rest : str) :
  proc_uptime_readline E = Ok (lead ++ tok ++ rest) ->
  forallb isspace lead = true ->
  tok <> [] -> forallb not_space tok = true ->
  (rest = [] \/ exists c r, rest = c :: r /\ isspace c = true) ->
  uptime_counter E = float_of_str E tok
  /\ (forall e, float_of_str E tok = Raise e ->
        get_uptime E s = (s, Ok (lit "unknown"))).
Proof.
  intros Hline Hlead Hne Htok Hrest.
  assert (Hc : uptime_counter E = float_of_str E tok).
  { unfold uptime_counter. rewrite Hline. cbn [rbind].
    now rewrite (split_ws_first_field lead tok rest Hlead Hne Htok Hrest). }
  split; [exact Hc|].
  intros e He. rewrite get_uptime_run. do 2 f_equal.
  unfold uptime_text. now rewrite Hc, He.
Qed.

Lemma get_uptime_first_field_kernel_line :
  uptime_counter (env_uptime_line (lit "90000.00 170000.00" ++ [10%N]))
  = Ok (Float.of_Z 90000).
Proof.
  destruct (get_uptime_first_field
              (env_uptime_line (lit "90000.00 170000.00" ++ [10%N]))
              (connection ∅) [] (lit "90000.00") (lit " 170000.00" ++ [10%N]))
    as [Hc _];
    [ reflexivity | reflexivity | discriminate | reflexivity
    | right; eexists _, _; split; reflexivity
    | exact Hc ].
Defined.

Lemma drop_while_split (p : N -> bool) (l : str) :
  l = take_while p l ++ drop_while p l /\ forallb p (take_while p l) = true.
Proof.
  induction l as [|a l [IH1 IH2]]; cbn; [now split|].
  destruct (p a) eqn:Ha; cbn.
  - rewrite Ha, IH2. split; [now f_equal|reflexivity].
  - now split.
Qed.

Lemma drop_while_all (p : N -> bool) (l : str) :
  forallb p l = true -> drop_while p l = [].
Proof.
  induction l as [|a l IH]; cbn; [reflexivity|].
  intros H. apply andb_prop in H as [Ha Hl]. now rewrite Ha, IH.
Qed.

Lemma forallb_rev (p : N -> bool) (l : str) :
  forallb p l = true -> forallb p (rev l) = true.
Proof.
  rewrite !forallb_forall. intros H x Hx. apply H. now apply in_rev.
Qed.

Lemma lstrip_app_blank (lead x : str) :
  forallb isspace lead = true -> lstrip (lead ++ x) = lstrip x.
Proof.
  unfold lstrip. induction lead as [|a lead IH]; cbn; [reflexivity|].
  intros H. apply andb_prop in H as [Ha Hl]. rewrite Ha. exact (IH Hl).
Qed.

Lemma rstrip_blank (trail : str) :
  forallb isspace trail = true -> rstrip trail = [].
Proof.
  intros H. unfold rstrip.
  now rewrite (drop_while_all isspace (rev trail) (forallb_rev _ _ H)).
Qed.

(** Stripping removes a run of white space at each end and nothing else. *)
Lemma strip_decompose (s : str) :
  exists lead trail,
    s = lead ++ strip s ++ trail
    /\ forallb isspace lead = true /\ forallb isspace trail = true.
Proof.
  destruct (drop_while_split isspace s) as [Hs Hlead].
  destruct (drop_while_split isspace (rev (lstrip s))) as [Hr Htrail].
  exists (take_while isspace s), (rev (take_while isspace (rev (lstrip s)))).
  split; [|split; [exact Hlead|now apply forallb_rev]].
  unfold strip, rstrip. rewrite <- rev_app_distr, <- Hr, rev_involutive.
  exact Hs.
Qed.

Lemma strip_padded (lead d trail : str) :
  d <> [] -> forallb not_space d = true ->
  forallb isspace lead = true -> forallb isspace trail = true ->
  strip (lead ++ d ++ trail) = d.
Proof.
  intros Hne Hd Hlead Htrail.
  assert (H : strip (lead ++ d ++ trail) = strip (d ++ trail)).
  { unfold strip. rewrite (lstrip_app_blank lead _ Hlead). reflexivity. }
  rewrite H, (strip_ids d trail Hne Hd), (rstrip_blank trail Htrail).
  apply app_nil_r.
Qed.

(** X9: [check_systemd_service] returns true exactly when the query completes
    and prints the word [active] with nothing but white space before and
    after it; the comparison is exact in every other respect (letter case
    included). *)
Theorem check_systemd_service_active_padded
    (E : Env) (name : str) (s : State) :
  (check_systemd_service E name s).2 = Ok true <->
  exists c lead trail,
    (run_text E (systemctl_argv name) (fs s)).2 = Ok c
    /\ stdout c = lead ++ lit "active" ++ trail
    /\ forallb isspace lead = true /\ forallb isspace trail = true.
Proof.
  rewrite check_systemd_service_run. cbn [snd].
  destruct (run_text E _ (fs s)).2 as [c|e]; cbn [systemd_verdict].
  - split.
    + intros [= H]. apply bool_decide_eq_true in H.
      destruct (strip_decompose (stdout c)) as (lead & trail & Hs & Hl & Ht).
      rewrite H in Hs. now exists c, lead, trail.
    + intros (c' & lead & trail & [= <-] & Hout & Hl & Ht).
      f_equal. apply bool_decide_eq_true. rewrite Hout.
      apply strip_padded; [discriminate|reflexivity|exact Hl|exact Ht].
  - split; [discriminate|]. now intros (c & _ & _ & [=] & _).
Qed.

Lemma check_systemd_service_active_padded_blanks :
  (check_systemd_service env_active_padded (lit "groundwater-updater")
     (connection ∅)).2 = Ok true.
Proof.
  apply (check_systemd_service_active_padded env_active_padded
           (lit "groundwater-updater") (connection ∅)).
  eexists _, (lit "  "), [32%N; 10%N].
  split; [reflexivity|]. split; [reflexivity|]. split; reflexivity.
Defined.

(* ===================================================================== *)
(** ** Further properties of the status route *)
(* ===================================================================== *)



(** X11: The status of a report is [healthy] exactly when every one of the six
    checks is true, [offline] exactly when every one is false, and
    [partial] exactly when some check is true and some check is false. *)
Theorem status_report_all_or_none (E : Env) (s : State) :
  exists s' r,
    build_status_report E s = (s', Ok r)
    /\ (status r = lit "healthy" <->
        forallb (fun v : bool => v)
          (dict_values (systemd r) ++ dict_values (processes r)) = true)
    /\ (status r = lit "offline" <->
        forallb negb
          (dict_values (systemd r) ++ dict_values (processes r)) = true)
    /\ (status r = lit "partial" <->
        existsb (fun v : bool => v)
          (dict_values (systemd r) ++ dict_values (processes r)) = true
        /\ existsb negb
             (dict_values (systemd r) ++ dict_values (processes r)) = true).
Proof.
  destruct (build_status_report_run E s)
    as (s' & s1 & s2 & s3 & p1 & p2 & p3 & Hrun & _).
  exists s', (report_of s1 s2 s3 p1 p2 p3 (uptime_text E)).
  split; [exact Hrun|].
  generalize (uptime_text E). intros up.
  destruct s1, s2, s3, p1, p2, p3; vm_compute;
    repeat split; intros; try congruence; try (exfalso; intuition congruence).
Qed.

(** X12: A GET of [/] or of [/status] always completes with status 200, the
    content type [application/json] and the serialised report as its
    body, whatever the tools do: a failing probe shows in the report, not
    in the status of the response. *)
Theorem status_route_always_200 (E : Env) (path : str) (f : gmap str bytes) :
  path = lit "/" \/ path = lit "/status" ->
  exists r,
    (build_status_report E (connection f)).2 = Ok r
    /\ (serve E path f).2 = Ok tt
    /\ wire_status (wire (serve E path f).1) = Some 200
    /\ In (lit "Content-Type", lit "application/json")
          (wire_headers (wire (serve E path f).1))
    /\ wire_body (wire (serve E path f).1) = dumps (json_of_report r).
Proof.
  intros Hpath.
  assert (Hroute : do_GET E path = handle_status E).
  { destruct Hpath as [->| ->]; apply do_GET_status. }
  unfold serve. rewrite Hroute.
  destruct (handle_status_run E (connection f)) as (s1 & r & Hrun & Hw & Hs).
  exists r. rewrite Hrun, Hs. cbn [fst snd sent wire]. rewrite Hw.
  cbn [connection wire app].
  split; [reflexivity|]. split; [reflexivity|]. split; [reflexivity|].
  split; [cbn; tauto|].
  unfold wire_body. cbn. destruct (dumps (json_of_report r)); reflexivity.
Qed.

Lemma status_route_always_200_no_tools :
  wire_status (wire (serve bare_env (lit "/") ∅).1) = Some 200.
Proof.
  destruct (status_route_always_200 bare_env (lit "/") ∅) as (r & _ & _ & H & _);
    [left; reflexivity|exact H].
Defined.

(* ===================================================================== *)
(** ** Further properties of the routes *)
(* ===================================================================== *)

Lemma take_screenshot_shot (E : Env) (window_id : option str) (s : State) :
  exists s',
    take_screenshot E window_id s = (s', Ok (shot_of E window_id (fs s)).2)
    /\ fs s' = (shot_of E window_id (fs s)).1
    /\ wire s' = wire s.
Proof.
  rewrite take_screenshot_state. eexists. split; [reflexivity|].
  split; reflexivity.
Qed.

Lemma capture_window_shot (E : Env) (window_id : option str) (s : State) :
  exists s',
    capture_window E window_id s = (s', Ok (window_shot E window_id (fs s)).2)
    /\ fs s' = (window_shot E window_id (fs s)).1
    /\ wire s' = wire s.
Proof.
  unfold capture_window, window_shot. destruct (truthy_str window_id).
  - apply take_screenshot_shot.
  - exists s. split; [reflexivity|]. split; reflexivity.
Qed.

Lemma handle_screenshot_wire (E : Env) (s : State) :
  (handle_screenshot E s).2 = Ok tt
  /\ wire (handle_screenshot E s).1 = wire s ++ screenshot_wire E (fs s).
Proof.
  destruct (take_screenshot_shot E None s) as (s1 & Hrun & _ & Hw).
  unfold handle_screenshot. rewrite (bind_ok _ _ _ _ _ Hrun).
  unfold screenshot_wire, screenshot_events.
  destruct (truthy_bytes _).
  - rewrite send_png_run. cbn [fst snd sent wire]. now rewrite Hw.
  - rewrite send_failed_run. cbn [fst snd sent wire]. now rewrite Hw.
Qed.

Lemma handle_screenshot_terminal_wire (E : Env) (f : gmap str bytes) :
  (serve E (lit "/screenshot/terminal") f).2 = Ok tt
  /\ wire (serve E (lit "/screenshot/terminal") f).1 = terminal_wire E f.
Proof.
  unfold serve. rewrite do_GET_terminal.
  destruct (handle_screenshot_terminal_run E (connection f))
    as (s2 & shot & Hcap & Hw2 & Hrun).
  cbn [fs connection] in Hcap, Hrun.
  destruct (capture_window_shot E (resolve E terminal_patterns f).2
              (set_fs (resolve E terminal_patterns f).1 (connection f)))
    as (s2' & Hcap' & Hfs & _).
  rewrite Hcap in Hcap'. injection Hcap' as <- ->.
  cbn [fs set_fs] in Hfs. rewrite Hrun. unfold terminal_wire. cbn zeta.
  destruct (_ && _).
  - cbn [fst snd sent wire]. rewrite Hw2. now split.
  - destruct (handle_screenshot_wire E s2) as [Hok Hw].
    rewrite Hok, Hw, Hw2, Hfs. now split.
Qed.

Lemma handle_screenshot_chromium_wire (E : Env) (f : gmap str bytes) :
  (serve E (lit "/screenshot/chromium") f).2 = Ok tt
  /\ wire (serve E (lit "/screenshot/chromium") f).1 = chromium_wire E f.
Proof.
  unfold serve. rewrite do_GET_chromium.
  destruct (handle_screenshot_chromium_run E (connection f))
    as (s2 & shot & Hcap & Hw2 & Hrun).
  cbn [fs connection] in Hcap, Hrun.
  destruct (capture_window_shot E (resolve E chromium_patterns f).2
              (set_fs (resolve E chromium_patterns f).1 (connection f)))
    as (s2' & Hcap' & _ & _).
  rewrite Hcap in Hcap'. injection Hcap' as <- ->.
  rewrite Hrun. unfold chromium_wire. cbn zeta.
  cbn [fst snd sent wire]. rewrite Hw2. now split.
Qed.

(** X13: A GET of [/screenshot] always completes, with one of two responses.
    It answers 200 with the content type [image/png] and, as its body,
    exactly the bytes of the wrapper's output file, when the wrapper exits
    with code 0 and that file holds data; in every other case it answers
    500 with the content type [application/json] and the body
    [{"error": "Failed to take screenshot"}]. *)
Theorem handle_screenshot_spec (E : Env) (f : gmap str bytes) :
  (serve E (lit "/screenshot") f).2 = Ok tt
  /\ ((wire_status (wire (serve E (lit "/screenshot") f).1) = Some 200
       /\ In (lit "Content-Type", lit "image/png")
             (wire_headers (wire (serve E (lit "/screenshot") f).1))
       /\ (exists c,
             (run_bytes E [lit "/opt/take-screenshot.sh"; mktemp E f] f).2 = Ok c
             /\ returncode c = 0)
       /\ (run_bytes E [lit "/opt/take-screenshot.sh"; mktemp E f] f).1
            !! mktemp E f
          = Some (wire_body (wire (serve E (lit "/screenshot") f).1))
       /\ wire_body (wire (serve E (lit "/screenshot") f).1) <> EmptyString)
      \/ (wire_status (wire (serve E (lit "/screenshot") f).1) = Some 500
          /\ In (lit "Content-Type", lit "application/json")
                (wire_headers (wire (serve E (lit "/screenshot") f).1))
          /\ wire_body (wire (serve E (lit "/screenshot") f).1)
             = ("{" ++ dq ++ "error" ++ dq ++ ": " ++ dq
                ++ "Failed to take screenshot" ++ dq ++ "}")%string
          /\ ~ (exists c data,
                  (run_bytes E [lit "/opt/take-screenshot.sh"; mktemp E f] f).2
                    = Ok c
                  /\ returncode c = 0
                  /\ (run_bytes E [lit "/opt/take-screenshot.sh"; mktemp E f] f).1
                       !! mktemp E f = Some data
                  /\ data <> EmptyString))).
Proof.
  unfold serve. rewrite do_GET_screenshot.
  destruct (handle_screenshot_wire E (connection f)) as [Hok Hw].
  split; [exact Hok|]. rewrite Hw. cbn [connection wire fs app].
  unfold screenshot_wire, screenshot_events, shot_of. cbn [snd].
  change (capture_argv None (mktemp E f))
    with [lit "/opt/take-screenshot.sh"; mktemp E f].
  destruct (capture_verdict _ _ _) as [data|] eqn:Hv.
  - apply capture_verdict_some in Hv as (Hc & Hfile & Hne).
    destruct data as [|a b]; [contradiction|]. left. cbn [truthy_bytes default from_option id].
    destruct (png_events_read E (String a b)) as (H1 & H2 & H3 & _).
    rewrite H2. split; [exact H1|]. split; [exact H3|].
    split; [exact Hc|]. split; [exact Hfile|exact Hne].
  - right. cbn [truthy_bytes].
    destruct (failed_events_read E) as [H1 H2].
    split; [exact H1|]. split; [cbn; tauto|]. split; [exact H2|].
    intros (c & data & Hc & Hrc & Hfile & Hne).
    assert (H : capture_verdict (mktemp E f)
                  (run_bytes E [lit "/opt/take-screenshot.sh"; mktemp E f] f).1
                  (run_bytes E [lit "/opt/take-screenshot.sh"; mktemp E f] f).2
                = Some data).
    { apply capture_verdict_some. split; [now exists c|now split]. }
    rewrite Hv in H. discriminate.
Qed.

Lemma well_formed_png (E : Env) (data : bytes) :
  well_formed_response (png_events E data).
Proof.
  exists 200,
    [ (lit "Server", version_string E); (lit "Date", date_time_string E);
      (lit "Content-Type", lit "image/png");
      (lit "Access-Control-Allow-Origin", lit "*");
      (lit "Cache-Control", lit "no-cache") ], [Write data].
  split; [reflexivity|]. split; [tauto|]. right. now exists data.
Qed.

Lemma well_formed_failed (E : Env) : well_formed_response (failed_events E).
Proof.
  exists 500,
    [ (lit "Server", version_string E); (lit "Date", date_time_string E);
      (lit "Content-Type", lit "application/json") ],
    [Write (dumps (JDict [(lit "error", JStr (lit "Failed to take screenshot"))]))].
  split; [reflexivity|]. split; [tauto|]. right. now eexists.
Qed.

Lemma well_formed_not_running (E : Env) :
  well_formed_response (not_running_events E).
Proof.
  exists 404,
    [ (lit "Server", version_string E); (lit "Date", date_time_string E);
      (lit "Content-Type", lit "application/json");
      (lit "Access-Control-Allow-Origin", lit "*") ],
    [Write (dumps (JDict [(lit "error", JStr (lit "Chromium not running"))]))].
  split; [reflexivity|]. split; [tauto|]. right. now eexists.
Qed.

Lemma well_formed_not_found (E : Env) :
  well_formed_response (not_found_events E).
Proof.
  exists 404,
    [ (lit "Server", version_string E); (lit "Date", date_time_string E) ], [].
  split; [reflexivity|]. split; [tauto|]. now left.
Qed.

Lemma well_formed_report (E : Env) (r : StatusReport) :
  well_formed_response (report_events E r).
Proof.
  exists 200,
    [ (lit "Server", version_string E); (lit "Date", date_time_string E);
      (lit "Content-Type", lit "application/json");
      (lit "Access-Control-Allow-Origin", lit "*") ],
    [Write (dumps (json_of_report r))].
  split; [reflexivity|]. split; [tauto|]. right. now eexists.
Qed.

Lemma well_formed_screenshot (E : Env) (f : gmap str bytes) :
  well_formed_response (screenshot_wire E f).
Proof.
  unfold screenshot_wire, screenshot_events.
  destruct (truthy_bytes _); [apply well_formed_png|apply well_formed_failed].
Qed.

(** X14: Every GET, on every path and whatever the tools do, completes without
    an exception and sends exactly one response: a status line with the
    code 200, 404 or 500, headers, the end of the headers, and at most one
    block of body bytes, in this order. *)
Theorem do_GET_one_response (E : Env) (path : str) (f : gmap str bytes) :
  (serve E path f).2 = Ok tt
  /\ well_formed_response (wire (serve E path f).1).
Proof.
  destruct (decide (In path routes)) as [Hin|Hout].
  - unfold routes in Hin. cbn [In] in Hin.
    destruct Hin as [<-|[<-|[<-|[<-|[<-|[]]]]]].
    + unfold serve. rewrite (proj1 (do_GET_status E)).
      destruct (handle_status_run E (connection f)) as (s1 & r & _ & Hw & Hrun).
      rewrite Hrun. cbn [fst snd sent wire]. rewrite Hw.
      split; [reflexivity|apply well_formed_report].
    + unfold serve. rewrite (proj2 (do_GET_status E)).
      destruct (handle_status_run E (connection f)) as (s1 & r & _ & Hw & Hrun).
      rewrite Hrun. cbn [fst snd sent wire]. rewrite Hw.
      split; [reflexivity|apply well_formed_report].
    + unfold serve. rewrite do_GET_screenshot.
      destruct (handle_screenshot_wire E (connection f)) as [Hok Hw].
      split; [exact Hok|]. rewrite Hw. apply well_formed_screenshot.
    + destruct (handle_screenshot_terminal_wire E f) as [Hok Hw].
      split; [exact Hok|]. rewrite Hw. unfold terminal_wire. cbn zeta.
      destruct (_ && _); [apply well_formed_png|apply well_formed_screenshot].
    + destruct (handle_screenshot_chromium_wire E f) as [Hok Hw].
      split; [exact Hok|]. rewrite Hw. unfold chromium_wire. cbn zeta.
      destruct (_ && _); [apply well_formed_png|apply well_formed_not_running].
  - unfold serve. rewrite (do_GET_unknown E path Hout), send_not_found_run.
    split; [reflexivity|apply well_formed_not_found].
Qed.

(** What a 200 of [png_events] carries, when the data came from a capture
    that gave data. *)
Lemma png_events_no_cache (E : Env) (data : option bytes) :
  truthy_bytes data = true ->
  In (lit "Content-Type", lit "image/png")
     (wire_headers (png_events E (default EmptyString data)))
  /\ In (lit "Cache-Control", lit "no-cache")
        (wire_headers (png_events E (default EmptyString data)))
  /\ wire_body (png_events E (default EmptyString data)) <> EmptyString.
Proof.
  intros Hd. destruct data as [[|a b]|]; try discriminate.
  cbn [default from_option id].
  split; [cbn; tauto|]. split; [cbn; tauto|].
  destruct (png_events_read E (String a b)) as (_ & -> & _). discriminate.
Qed.

Lemma screenshot_wire_200 (E : Env) (f : gmap str bytes) :
  wire_status (screenshot_wire E f) = Some 200 ->
  In (lit "Content-Type", lit "image/png") (wire_headers (screenshot_wire E f))
  /\ In (lit "Cache-Control", lit "no-cache") (wire_headers (screenshot_wire E f))
  /\ wire_body (screenshot_wire E f) <> EmptyString.
Proof.
  unfold screenshot_wire, screenshot_events.
  destruct (truthy_bytes _) eqn:Hd; [|discriminate].
  intros _. now apply png_events_no_cache.
Qed.

(** X15: On the three screenshot routes a response with status 200 is always an
    image: its content type is [image/png], it carries [Cache-Control:
    no-cache], and its body is not empty. *)
Theorem screenshot_200_is_image (E : Env) (path : str) (f : gmap str bytes) :
  path = lit "/screenshot" \/ path = lit "/screenshot/terminal"
  \/ path = lit "/screenshot/chromium" ->
  wire_status (wire (serve E path f).1) = Some 200 ->
  In (lit "Content-Type", lit "image/png")
     (wire_headers (wire (serve E path f).1))
  /\ In (lit "Cache-Control", lit "no-cache")
        (wire_headers (wire (serve E path f).1))
  /\ wire_body (wire (serve E path f).1) <> EmptyString.
Proof.
  intros [->|[->| ->]].
  - unfold serve. rewrite do_GET_screenshot.
    destruct (handle_screenshot_wire E (connection f)) as [_ Hw].
    rewrite Hw. apply screenshot_wire_200.
  - destruct (handle_screenshot_terminal_wire E f) as [_ Hw].
    rewrite Hw. unfold terminal_wire. cbn zeta.
    destruct (_ && _) eqn:Hc.
    + intros _. apply andb_prop in Hc as [_ Hd].
      now apply png_events_no_cache.
    + apply screenshot_wire_200.
  - destruct (handle_screenshot_chromium_wire E f) as [_ Hw].
    rewrite Hw. unfold chromium_wire. cbn zeta.
    destruct (_ && _) eqn:Hc.
    + intros _. apply andb_prop in Hc as [_ Hd].
      now apply png_events_no_cache.
    + discriminate.
Qed.

Lemma screenshot_200_is_image_whole_screen :
  wire_body (wire (serve (env_capture_writes "PNG") (lit "/screenshot") ∅).1)
  <> EmptyString.
Proof.
  apply (screenshot_200_is_image (env_capture_writes "PNG") (lit "/screenshot") ∅).
  - left. reflexivity.
  - vm_compute. reflexivity.
Defined.


Lemma png_events_ext (E E' : Env) (data : bytes) :
  version_string E = version_string E' ->
  date_time_string E = date_time_string E' ->
  png_events E data = png_events E' data.
Proof. intros Hv Hd. unfold png_events, status_line. now rewrite Hv, Hd. Qed.

Lemma failed_events_ext (E E' : Env) :
  version_string E = version_string E' ->
  date_time_string E = date_time_string E' ->
  failed_events E = failed_events E'.
Proof. intros Hv Hd. unfold failed_events, status_line. now rewrite Hv, Hd. Qed.


Lemma shot_of_ext (E E' : Env) (window_id : option str) (f : gmap str bytes) :
  mktemp E f = mktemp E' f ->
  run_bytes E (capture_argv window_id (mktemp E f)) f
  = run_bytes E' (capture_argv window_id (mktemp E f)) f ->
  shot_of E window_id f = shot_of E' window_id f.
Proof. intros Hm Hr. unfold shot_of. cbn zeta. now rewrite <- Hm, Hr. Qed.



(** X17: The first pattern has priority: when the search for [kmzero] resolves
    a window, the response to a GET of [/screenshot/terminal] does not
    depend on what the searches for [LXTerminal] and [Terminal] would
    answer. *)
Theorem terminal_first_pattern_wins (E E' : Env) (f : gmap str bytes) :
  same_but_later_searches E E' ->
  truthy_str (window_verdict (run_text E (xdotool_argv (lit "kmzero")) f).2)
    = true ->
  wire (serve E (lit "/screenshot/terminal") f).1
  = wire (serve E' (lit "/screenshot/terminal") f).1.
Proof.
  intros (Ht & Hm & Hv & Hd & Hb) Hfound.
  rewrite (proj2 (handle_screenshot_terminal_wire E f)),
    (proj2 (handle_screenshot_terminal_wire E' f)).
  unfold terminal_wire, terminal_patterns. cbn zeta. cbn [resolve].
  rewrite <- Ht, Hfound. cbn [fst snd].
  set (g := (run_text E (xdotool_argv (lit "kmzero")) f).1).
  set (w := window_verdict (run_text E (xdotool_argv (lit "kmzero")) f).2).
  assert (Hs : window_shot E w g = window_shot E' w g).
  { unfold window_shot. destruct (truthy_str w); [|reflexivity].
    apply shot_of_ext; [apply Hm|apply Hb]. }
  rewrite <- Hs.
  destruct (_ && _); [now apply png_events_ext|].
  unfold screenshot_wire, screenshot_events.
  rewrite <- (shot_of_ext E E' None _ (Hm _) (Hb _ _)).
  destruct (truthy_bytes _); [now apply png_events_ext|now apply failed_events_ext].
Qed.

Lemma terminal_first_pattern_wins_two_later :
  wire (serve (env_terminal (lit "6291459")) (lit "/screenshot/terminal") ∅).1
  = wire (serve (env_terminal []) (lit "/screenshot/terminal") ∅).1.
Proof.
  apply terminal_first_pattern_wins.
  - split; [reflexivity|]. split; [reflexivity|].
    split; [reflexivity|]. split; reflexivity.
  - vm_compute. reflexivity.
Defined.

(** X18: When none of the three searches resolves a window, the response to a
    GET of [/screenshot/terminal] is the response a GET of [/screenshot]
    gets on the file system the searches leave. *)
Theorem terminal_falls_back_to_screenshot (E : Env) (f : gmap str bytes) :
  truthy_str (resolve E terminal_patterns f).2 = false ->
  wire (serve E (lit "/screenshot/terminal") f).1
  = wire (serve E (lit "/screenshot") (resolve E terminal_patterns f).1).1.
Proof.
  intros Hnone.
  rewrite (proj2 (handle_screenshot_terminal_wire E f)).
  unfold serve at 1. rewrite do_GET_screenshot.
  rewrite (proj2 (handle_screenshot_wire E _)). cbn [connection wire fs app].
  unfold terminal_wire. cbn zeta.
  unfold window_shot. rewrite Hnone. reflexivity.
Qed.

Lemma terminal_falls_back_to_screenshot_no_tools :
  wire (serve bare_env (lit "/screenshot/terminal") ∅).1
  = wire (serve bare_env (lit "/screenshot") ∅).1.
Proof.
  apply (terminal_falls_back_to_screenshot bare_env ∅). reflexivity.
Defined.
